(** * Engineer's Line References: mileage tables and connection points

    A shallow embedding of [elr_mileages.py]: the mileage-column parser
    [parse_mileage], the node/connection parser [parse_node_and_connection],
    the assembler [parse_mileage_node_and_connection], the in-place update
    [parse_mileage_file] and the connection resolver
    [get_conn_end_start_mileages], with the properties their specification
    states about them.

    Python strings are modelled by [string] (ASCII text), Python exceptions
    by the [Raise] outcome, pandas frames by their columns or rows, and the
    mileage-file store by a function that is handed to the resolver. *)

From Stdlib Require Import String Ascii List ZArith Bool Lia PrimFloat.
From Stdlib Require Import DecimalString.
From stdpp Require Import base gmap strings list.

Import ListNotations.
Local Open Scope string_scope.
Local Open Scope list_scope.

(** ** Outcomes of Python calls *)

(** The exceptions the modelled code can raise. [FrameShapeError] is what the
    [pd.DataFrame] constructor raises when the number of column names differs
    from the width of the data ("2 columns passed, passed data had 1
    columns"); [ExternalError] stands for whatever a collaborator raises. *)
Inductive exn : Type :=
| AttributeError
| TypeError
| KeyError
| IndexError
| ValueError
| FrameShapeError
| ExternalError.

(** A call returns a value, raises, or (for the fuel-indexed recursion of
    [parse_mileage]) has not finished within the recursion depth given. *)
Inductive outcome (A : Type) : Type :=
| Return (a : A)
| Raise (e : exn)
| OutOfFuel.

Arguments Return {A} a.
Arguments Raise {A} e.
Arguments OutOfFuel {A}.

(** The call has ended, by a return or by an exception. *)
Definition halted {A} (o : outcome A) : bool :=
  match o with
  | OutOfFuel => false
  | _ => true
  end.

Definition obind {A B} (x : outcome A) (f : A -> outcome B) : outcome B :=
  match x with
  | Return a => f a
  | Raise e => Raise e
  | OutOfFuel => OutOfFuel
  end.

Notation "'let?' x := c1 'in' c2" := (obind c1 (fun x => c2))
  (at level 10, x pattern, c1 at level 100, c2 at level 200).

(** [[f(x) for x in xs]]: the calls are made left to right and the first
    exception aborts the comprehension. *)
Fixpoint mapM {A B} (f : A -> outcome B) (xs : list A) : outcome (list B) :=
  match xs with
  | [] => Return []
  | x :: xs' =>
      let? y := f x in
      let? ys := mapM f xs' in
      Return (y :: ys)
  end.

(** ** Python string methods *)

Module PyStr.

Definition startswith (s p : string) : bool := String.prefix p s.

Fixpoint rev_string (acc s : string) : string :=
  match s with
  | EmptyString => acc
  | String c s' => rev_string (String c acc) s'
  end.

Definition reverse (s : string) : string := rev_string "" s.

Definition endswith (s p : string) : bool :=
  String.prefix (reverse p) (reverse s).

(** [sub in s] *)
Fixpoint contains (sub s : string) : bool :=
  String.prefix sub s ||
  match s with
  | EmptyString => false
  | String _ s' => contains sub s'
  end.

(** [s.find(sub)], [-1] when absent. *)
Fixpoint find_from (sub s : string) (i : Z) : Z :=
  if String.prefix sub s then i
  else match s with
       | EmptyString => (-1)%Z
       | String _ s' => find_from sub s' (i + 1)
       end.

Definition find (s sub : string) : Z := find_from sub s 0.

(** [s[i:j]] with Python's treatment of negative and out-of-range bounds. *)
Definition clamp (len i : Z) : Z :=
  let i' := if (i <? 0)%Z then (i + len)%Z else i in
  Z.max 0 (Z.min len i').

Definition slice (s : string) (i j : Z) : string :=
  let len := Z.of_nat (String.length s) in
  let lo := clamp len i in
  let hi := clamp len j in
  String.substring (Z.to_nat lo) (Z.to_nat (hi - lo)) s.

(** [s[i:]] *)
Definition slice_from (s : string) (i : Z) : string :=
  slice s i (Z.of_nat (String.length s)).

Definition mem (c : ascii) (chars : string) : bool :=
  existsb (Ascii.eqb c) (list_ascii_of_string chars).

(** [s.lstrip(chars)]: drops leading characters that occur in [chars]. *)
Fixpoint lstrip (s chars : string) : string :=
  match s with
  | EmptyString => EmptyString
  | String c s' => if mem c chars then lstrip s' chars else s
  end.

Definition rstrip (s chars : string) : string :=
  reverse (lstrip (reverse s) chars).

Definition strip (s chars : string) : string :=
  rstrip (lstrip s chars) chars.

(** [s.replace(old, new)] for a non-empty [old]: occurrences are replaced
    left to right without overlap. [skip] counts the characters of an
    occurrence still to be passed over. *)
Fixpoint replace_from (old new : string) (skip : nat) (s : string) : string :=
  match s with
  | EmptyString => EmptyString
  | String c s' =>
      match skip with
      | S k => replace_from old new k s'
      | O =>
          if String.prefix old s
          then new ++ replace_from old new (String.length old - 1) s'
          else String c (replace_from old new 0 s')
      end
  end.

(** With an empty [old] Python puts [new] around every character. *)
Fixpoint intersperse (new s : string) : string :=
  match s with
  | EmptyString => new
  | String c s' => new ++ String c (intersperse new s')
  end.

Definition replace (s old new : string) : string :=
  match old with
  | EmptyString => intersperse new s
  | _ => replace_from old new 0 s
  end.

(** [s.split(sep)] for a non-empty [sep]; the result is never empty. *)
Fixpoint split_from (sep : string) (skip : nat) (s : string) : list string :=
  match s with
  | EmptyString => [EmptyString]
  | String c s' =>
      match skip with
      | S k => split_from sep k s'
      | O =>
          if String.prefix sep s
          then EmptyString :: split_from sep (String.length sep - 1) s'
          else match split_from sep 0 s' with
               | piece :: rest => String c piece :: rest
               | [] => [String c EmptyString]
               end
      end
  end.

Definition split (s sep : string) : list string := split_from sep 0 s.

(** [sep.join(parts)] *)
Fixpoint join (sep : string) (parts : list string) : string :=
  match parts with
  | [] => EmptyString
  | [p] => p
  | p :: ps => p ++ sep ++ join sep ps
  end.

(** [str(n)] for a natural number. *)
Definition of_nat (n : nat) : string :=
  NilEmpty.string_of_uint (Nat.to_uint n).

End PyStr.

(** ** Regular expressions

    The patterns of the module are run by a backtracking matcher with the
    priorities of Python's [re]: alternatives left to right, quantifiers
    greedy. A position in the subject is the text before it (reversed) and
    the text after it; the continuation receives the position a match
    attempt has reached. Repetition is only ever applied to a character
    class in the source, and so it is here. *)

Module Re.

Inductive regex : Type :=
| Eps
| Chr (c : ascii)
| Cls (p : ascii -> bool)
| Cat (r1 r2 : regex)
| Alt (r1 r2 : regex)
| Opt (r : regex)
| Star (p : ascii -> bool)
| Plus (p : ascii -> bool)
| Bol
| Eol
| Ahead (r : regex)
| Behind (ps : list (ascii -> bool)).

Definition between (lo hi c : ascii) : bool :=
  (nat_of_ascii lo <=? nat_of_ascii c)%nat && (nat_of_ascii c <=? nat_of_ascii hi)%nat.

(** [\d], [[A-Z]], [\w] and [.] on ASCII text. *)
Definition digit (c : ascii) : bool := between "0" "9" c.
Definition upper (c : ascii) : bool := between "A" "Z" c.
Definition lower (c : ascii) : bool := between "a" "z" c.
Definition word (c : ascii) : bool :=
  lower c || upper c || digit c || Ascii.eqb c "_".
Definition newline : ascii := "010".
Definition dot (c : ascii) : bool := negb (Ascii.eqb c newline).

(** A literal string. *)
Fixpoint Str (s : string) : regex :=
  match s with
  | EmptyString => Eps
  | String c s' => Cat (Chr c) (Str s')
  end.

(** [p*], longest run first. *)
Fixpoint star {A : Type} (p : ascii -> bool) (pre rest : string)
         (k : string -> string -> option A) : option A :=
  match rest with
  | String c rest' =>
      if p c
      then match star p (String c pre) rest' k with
           | Some a => Some a
           | None => k pre rest
           end
      else k pre rest
  | EmptyString => k pre rest
  end.

(** The characters just before the position, nearest first. *)
Fixpoint behind (ps : list (ascii -> bool)) (pre : string) : bool :=
  match ps, pre with
  | [], _ => true
  | p :: ps', String c pre' => p c && behind ps' pre'
  | _ :: _, EmptyString => false
  end.

Fixpoint run (r : regex) (A : Type) (pre rest : string)
         (k : string -> string -> option A) {struct r} : option A :=
  match r with
  | Eps => k pre rest
  | Chr c =>
      match rest with
      | String d rest' => if Ascii.eqb c d then k (String d pre) rest' else None
      | EmptyString => None
      end
  | Cls p =>
      match rest with
      | String d rest' => if p d then k (String d pre) rest' else None
      | EmptyString => None
      end
  | Cat r1 r2 => run r1 A pre rest (fun pre' rest' => run r2 A pre' rest' k)
  | Alt r1 r2 =>
      match run r1 A pre rest k with
      | Some a => Some a
      | None => run r2 A pre rest k
      end
  | Opt r1 =>
      match run r1 A pre rest k with
      | Some a => Some a
      | None => k pre rest
      end
  | Star p => star p pre rest k
  | Plus p =>
      match rest with
      | String d rest' => if p d then star p (String d pre) rest' k else None
      | EmptyString => None
      end
  | Bol => match pre with EmptyString => k pre rest | _ => None end
  | Eol =>
      match rest with
      | EmptyString => k pre rest
      | String d EmptyString => if Ascii.eqb d newline then k pre rest else None
      | _ => None
      end
  | Ahead r1 =>
      match run r1 unit pre rest (fun _ _ => Some tt) with
      | Some _ => k pre rest
      | None => None
      end
  | Behind ps => if behind ps pre then k pre rest else None
  end.

(** The text a successful attempt consumed, from the text at its start and
    the text left at its end. *)
Definition consumed (rest rest' : string) : string :=
  String.substring 0 (String.length rest - String.length rest') rest.

(** A match object: the position it starts at and the position it ends at. *)
Record match_object : Type := MatchObject {
  m_pre : string; m_rest : string; m_end_pre : string; m_end_rest : string
}.

(** [m.group()] *)
Definition group (m : match_object) : string :=
  consumed (m_rest m) (m_end_rest m).

Definition attempt (r : regex) (pre rest : string) : option match_object :=
  run r match_object pre rest
    (fun pre' rest' => Some (MatchObject pre rest pre' rest')).

(** [re.match(r, s)]: an attempt at the start of [s] only. *)
Definition re_match (r : regex) (s : string) : option match_object :=
  attempt r EmptyString s.

(** [re.search(r, s)]: the leftmost position at which an attempt succeeds. *)
Fixpoint search_from (r : regex) (pre rest : string) : option match_object :=
  match attempt r pre rest with
  | Some m => Some m
  | None =>
      match rest with
      | String c rest' => search_from r (String c pre) rest'
      | EmptyString => None
      end
  end.

Definition re_search (r : regex) (s : string) : option match_object :=
  search_from r EmptyString s.

(** [[m.group() for m in re.finditer(r, s)]]: successive non-overlapping
    matches, each search resuming where the previous match ended (one
    character further after an empty match). At most [length s + 1]
    matches exist, which bounds the iteration. *)
Fixpoint finditer_from (n : nat) (r : regex) (pre rest : string) : list string :=
  match n with
  | O => []
  | S n' =>
      match search_from r pre rest with
      | None => []
      | Some m =>
          group m ::
          match group m, m_end_rest m with
          | EmptyString, String c rest' =>
              finditer_from n' r (String c (m_end_pre m)) rest'
          | EmptyString, EmptyString => []
          | _, _ => finditer_from n' r (m_end_pre m) (m_end_rest m)
          end
      end
  end.

Definition finditer_groups (r : regex) (s : string) : list string :=
  finditer_from (S (String.length s)) r EmptyString s.

Definition is_match (o : option match_object) : bool :=
  match o with Some _ => true | None => false end.

End Re.

(** [t] is what is left of [s] after some of its characters: the positions a
    match attempt on [s] can reach. *)
Definition suffix_of (t s : string) : Prop := exists u : string, s = (u ++ t)%string.

(** ** The patterns of the module *)

Module Pat.
Import Re.

(** [ \(\d+\.\d+\)] *)
Definition paren_mileage : regex :=
  Cat (Str " (") (Cat (Plus digit) (Cat (Chr ".") (Cat (Plus digit) (Chr ")")))).

(** [[ A-Z0-9]] *)
Definition space_upper_digit (c : ascii) : bool :=
  Ascii.eqb c " " || upper c || digit c.

(** ['\w+.*( \(\d+\.\d+\))?(/| and )\w+ with[ A-Z0-9]( \(\d+\.\d+\))?'] *)
Definition two_nodes : regex :=
  Cat (Plus word)
    (Cat (Star dot)
      (Cat (Opt paren_mileage)
        (Cat (Alt (Chr "/") (Str " and "))
          (Cat (Plus word)
            (Cat (Str " with")
              (Cat (Cls space_upper_digit) (Opt paren_mileage))))))).

(** [' with \w+( \(\d+\.\d+\))?'] *)
Definition with_clause : regex :=
  Cat (Str " with ") (Cat (Plus word) (Opt paren_mileage)).

(** ['^Usual|^New'] *)
Definition usual_or_new : regex :=
  Alt (Cat Bol (Str "Usual")) (Cat Bol (Str "New")).

(** ['^Connection'] *)
Definition connection_col : regex := Cat Bol (Str "Connection").

(** ['\w+(?= \(\d+\.\d+\))'] *)
Definition elr_before_mileage : regex :=
  Cat (Plus word) (Ahead paren_mileage).

(** ['(?<=\w \()\d+\.\d+'] *)
Definition mileage_after_elr : regex :=
  Cat (Behind [Ascii.eqb "("; Ascii.eqb " "; word])
    (Cat (Plus digit) (Cat (Chr ".") (Plus digit))).

(** ['[A-Z]{3}(0-9)?$']: three capitals, then optionally the three
    characters [0-9] (written as a group, not as a class), then the end of
    the text. *)
Definition link_elr_shape : regex :=
  Cat (Cls upper) (Cat (Cls upper) (Cat (Cls upper)
    (Cat (Opt (Str "0-9")) Eol))).

End Pat.

(** ** Values and frames *)

Inductive dtype : Type := float64 | object.

(** What a cell of a pandas column can hold here: [None], a Python float
    (NaN included), a [numpy.float64] scalar, a string, or a frame (a column
    built from the results of calls that return frames). A frame is kept by
    rows; [dtypes] gives the dtype of each column. *)
#[warnings="-register-all"]
Inductive value : Type :=
| VNone
| VFloat (f : float)
| VNpFloat (f : float)
| VStr (s : string)
| VFrame (cols : list string) (dts : list dtype) (rws : list (list value)).

Record frame : Type := Frame {
  columns : list string;
  dtypes : list dtype;
  rows : list (list value)
}.

Definition VFrameOf (t : frame) : value :=
  VFrame (columns t) (dtypes t) (rows t).

Definition NaN : value := VFloat nan.

Definition of_option (o : option string) : value :=
  match o with
  | Some s => VStr s
  | None => VNone
  end.

Definition nrows (t : frame) : nat := length (rows t).

Definition max_len {X} (data : list (list X)) : nat :=
  fold_right Nat.max 0 (map (@length X) data).

(** [row + [fill] * (n - len(row))] *)
Definition pad_to {X} (n : nat) (fill : X) (row : list X) : list X :=
  row ++ repeat fill (n - length row).

(** [pd.DataFrame(data, columns=cols)] for a list of rows: the width of the
    data is that of its longest row, shorter rows are filled with [None],
    and the constructor refuses a width that differs from the number of
    column names. Every column of such a frame has dtype [object]. *)
Definition DataFrame (data : list (list value)) (cols : list string) : outcome frame :=
  match data with
  | [] => Return (Frame cols (map (fun _ => object) cols) [])
  | _ :: _ =>
      let w := max_len data in
      if Nat.eqb w (length cols)
      then Return (Frame cols (map (fun _ => object) cols) (map (pad_to w VNone) data))
      else Raise FrameShapeError
  end.

(** [pd.DataFrame({c1: l1, c2: l2})] for two lists, which must be of one
    length. *)
Definition DataFrame2 (c1 : string) (l1 : list value) (c2 : string) (l2 : list value)
  : outcome frame :=
  if Nat.eqb (length l1) (length l2)
  then Return (Frame [c1; c2] [object; object]
                 (map (fun '(a, b) => [a; b]) (combine l1 l2)))
  else Raise ValueError.

Fixpoint index_of (name : string) (cols : list string) : option nat :=
  match cols with
  | [] => None
  | c :: cols' =>
      if String.eqb c name then Some 0
      else option_map S (index_of name cols')
  end.

Definition column_at (t : frame) (i : nat) : list value :=
  map (fun row => nth i row VNone) (rows t).

(** [t.iloc[:, i]]: the column at a position, with its dtype. *)
Definition iloc_col (t : frame) (i : nat) : outcome (dtype * list value) :=
  if Nat.ltb i (length (columns t))
  then Return (nth i (dtypes t) object, column_at t i)
  else Raise IndexError.

(** [t[name]] and [t.name] differ in what a missing column raises. *)
Definition getitem_col (t : frame) (name : string) : outcome (list value) :=
  match index_of name (columns t) with
  | Some i => Return (column_at t i)
  | None => Raise KeyError
  end.

Definition getattr_col (t : frame) (name : string) : outcome (list value) :=
  match index_of name (columns t) with
  | Some i => Return (column_at t i)
  | None => Raise AttributeError
  end.

Definition overlap (cs1 cs2 : list string) : bool :=
  existsb (fun c => existsb (String.eqb c) cs2) cs1.

(** [left.join(right)] for two frames on the default row index: a left join.
    Every row of [left] is kept; it is completed by the row of [right] at the
    same position, or by NaN where [right] has no such row. Rows of [right]
    beyond those of [left] are dropped. pandas refuses overlapping column
    names. *)
Definition join (left right : frame) : outcome frame :=
  if overlap (columns left) (columns right) then Raise ValueError
  else
    Return (Frame (columns left ++ columns right)
              (dtypes left ++ dtypes right)
              (imap (fun i lrow =>
                       lrow ++ match rows right !! i with
                               | Some rrow => rrow
                               | None => repeat NaN (length (columns right))
                               end)
                    (rows left))).

(** ** The mileage column: [parse_mileage] *)

(** [parse_mileage] is written for a column, and calls itself on each cell
    of the column; so its argument is a column or a single cell. *)
Inductive pyarg : Type :=
| Series (dt : dtype) (cells : list value)
| Scalar (v : value).

(** [mileage.dtype]: a pandas column and a numpy scalar have one; [None], a
    Python float, a string and a frame do not. *)
Definition get_dtype (mileage : pyarg) : outcome dtype :=
  match mileage with
  | Series dt _ => Return dt
  | Scalar (VNpFloat _) => Return float64
  | Scalar _ => Raise AttributeError
  end.

Definition chars_of (s : string) : list value :=
  map (fun c => VStr (String c EmptyString)) (list_ascii_of_string s).

(** [len(mileage)] *)
Definition py_len (mileage : pyarg) : outcome nat :=
  match mileage with
  | Series _ cells => Return (length cells)
  | Scalar (VStr s) => Return (String.length s)
  | Scalar (VFrame _ _ rws) => Return (length rws)
  | Scalar _ => Raise TypeError
  end.

(** [for m in mileage] *)
Definition py_iter (mileage : pyarg) : outcome (list value) :=
  match mileage with
  | Series _ cells => Return cells
  | Scalar (VStr s) => Return (chars_of s)
  | Scalar (VFrame cols _ _) => Return (map VStr cols)
  | Scalar _ => Raise TypeError
  end.

(** [pd.isnull(m)] for a scalar. *)
Definition isnull (m : value) : bool :=
  match m with
  | VNone => true
  | VFloat f | VNpFloat f => is_nan f
  | _ => false
  end.

(** The body of the loop over the cells of a column that is not of dtype
    [float64]: the text kept for the cell and its note. The truth value of
    [pd.isnull] of a frame is refused by pandas; a cell that is not null and
    not a string has no [startswith]. *)
Definition note_cell (m : value) : outcome (value * string) :=
  match m with
  | VFrame _ _ _ => Raise ValueError
  | _ =>
      if isnull m then Return (m, "Unknown")
      else
        match m with
        | VStr s =>
            if PyStr.startswith s "(" && PyStr.endswith s ")"
            then Return (VStr (PyStr.slice s (PyStr.find s "(" + 1) (PyStr.find s ")")),
                         "Reference")
            else if PyStr.startswith s "~"
            then Return (VStr (PyStr.slice_from s 1), "Approximate")
            else Return (VStr (PyStr.strip s " "), "")
        | _ => Raise AttributeError
        end
  end.

(** [parse_mileage(mileage)], with the depth of recursion bounded by
    [fuel]. *)
Fixpoint parse_mileage (fuel : nat) (mileage : pyarg) : outcome frame :=
  match fuel with
  | O => OutOfFuel
  | S fuel' =>
      let? dt := get_dtype mileage in
      let? noted :=
        match dt with
        | float64 =>
            let? n := py_len mileage in
            let? temp_mileage := py_iter mileage in
            Return (temp_mileage, repeat "" n)
        | object =>
            let? cells := py_iter mileage in
            let? pairs := mapM note_cell cells in
            Return (map fst pairs, map snd pairs)
        end in
      let '(temp_mileage, mileage_note) := noted in
      let? temp_mileage' :=
        mapM (fun m => let? t := parse_mileage fuel' (Scalar m) in Return (VFrameOf t))
             temp_mileage in
      DataFrame2 "Mileage" temp_mileage' "Mileage_Note" (map VStr mileage_note)
  end.

(** ** The node column: [parse_node_and_connection] *)

(** [preprocess_node(node_x)], the local function of
    [parse_node_and_connection]. [zip] stops at the shorter of its two
    lists, as [combine] does. *)
Definition preprocess_node (node_x : string) : string :=
  if Re.is_match (Re.re_match Pat.two_nodes node_x) then
    let init_conn_info := Re.finditer_groups Pat.with_clause node_x in
    let node_info :=
      if PyStr.contains "/" node_x
      then map (fun '(y, conn_inf) => PyStr.replace y conn_inf "")
               (combine (PyStr.split node_x "/") init_conn_info)
      else map (fun '(y, conn_inf) => PyStr.replace y conn_inf "")
               (combine (PyStr.split node_x " and ") init_conn_info) in
    let conn_info :=
      map (fun conn_inf => PyStr.replace conn_inf " with " "") init_conn_info in
    (PyStr.join "/" node_info ++ " with " ++ PyStr.join " and " conn_info)%string
  else node_x.

(** A cell of the node column that is not a string is refused by
    [re.match]. *)
Definition preprocess_cell (n : value) : outcome string :=
  match n with
  | VStr node_x => Return (preprocess_node node_x)
  | _ => Raise TypeError
  end.

(** The three fixed replacements and the split on [' with ']. *)
Definition node_and_connection (n : string) : list string :=
  PyStr.split
    (PyStr.replace
       (PyStr.replace
          (PyStr.replace n " with Freightliner terminal" " & Freightliner Terminal")
          " with curve to" " with")
       " (0.37 long)" "")
    " with ".

(** The body of the loop over [temp_node.Connection]: the list of
    connections of one row, [None] standing for Python's [None]. [x] is the
    source's [x = 2  # x-th occurrence]. *)
Definition connection_list (c : value) : outcome (list (option string)) :=
  let x := 2 in
  match c with
  | VNone => Return [None]
  | VStr c =>
      let cnode := PyStr.split c " and " in
      if Nat.ltb 2 (length cnode)
      then Return [Some (PyStr.join " and " (firstn x cnode));
                   Some (PyStr.join " and " (skipn x cnode))]
      else Return (map Some cnode)
  | _ => Raise AttributeError
  end.

Definition conn_eqb (a b : list (option string)) : bool :=
  bool_decide (a = b).

(** [conn_node_list.index(c)]: the position of the first list equal to
    [c]. *)
Fixpoint list_index (c : list (option string)) (l : list (list (option string)))
  : option nat :=
  match l with
  | [] => None
  | c' :: l' =>
      if conn_eqb c' c then Some 0 else option_map S (list_index c l')
  end.

(** [[conn_node_list.index(c) for c in conn_node_list if len(c) > 1]] *)
Definition multi_indices (conn_node_list : list (list (option string))) : list nat :=
  flat_map
    (fun c => if Nat.ltb 1 (length c)
              then match list_index c conn_node_list with
                   | Some i => [i]
                   | None => []
                   end
              else [])
    conn_node_list.

(** [[v for lst in [f(x) for x in row] for v in lst]] for a string method
    [f]; [None] has no string methods. *)
Definition flat_split (f : string -> list string) (row : list (option string))
  : outcome (list (option string)) :=
  let? lsts :=
    mapM (fun x => match x with
                   | Some s => Return (map Some (f s))
                   | None => Raise AttributeError
                   end) row in
  Return (concat lsts).

(** The two assignments to [conn_node_list[i]] in the body of the loop over
    the indices. *)
Definition fan_out (row : list (option string)) : outcome (list (option string)) :=
  let? row1 :=
    flat_split (fun x => PyStr.split (PyStr.lstrip (PyStr.rstrip x ",") "later ") " and ")
               row in
  flat_split (fun x => PyStr.split x ", ") row1.

Fixpoint fan_out_loop (idxs : list nat) (conn_node_list : list (list (option string)))
  : outcome (list (list (option string))) :=
  match idxs with
  | [] => Return conn_node_list
  | i :: idxs' =>
      match conn_node_list !! i with
      | None => Raise IndexError
      | Some row =>
          let? row' := fan_out row in
          fan_out_loop idxs' (<[i := row']> conn_node_list)
      end
  end.

(** [['Connection' + str(n + 1) for n in range(no_conn)]] *)
Definition connection_names (no_conn : nat) : list string :=
  map (fun n => ("Connection" ++ PyStr.of_nat (n + 1))%string) (seq 0 no_conn).

(** The lists of connections as they are handed to the [DataFrame]
    constructor, with the names of their columns. *)
Definition connection_rows (conn_node_list : list (list (option string)))
  : outcome (list (list (option string)) * list string) :=
  if forallb (fun c => Nat.eqb (length c) 1) conn_node_list
  then Return (map (fun c => c ++ [None]) conn_node_list,
               ["Connection1"; "Connection2"])
  else
    let? fanned := fan_out_loop (multi_indices conn_node_list) conn_node_list in
    let no_conn := max_len fanned in
    Return (map (pad_to no_conn None) fanned, connection_names no_conn).

(** [temp_node], the frame of the columns [Node] and [Connection] (lines 143
    to 148). *)
Definition temp_node_of (node : list value) : outcome frame :=
  let? parsed_node_info := mapM preprocess_cell node in
  DataFrame (map (fun n => map VStr (node_and_connection n)) parsed_node_info)
            ["Node"; "Connection"].

(** [conn_node_list] as the loop over [temp_node.Connection] leaves it
    (lines 149 to 158). *)
Definition conn_node_list_of (temp_node : frame) : outcome (list (list (option string))) :=
  let? connection := getattr_col temp_node "Connection" in
  mapM connection_list connection.

Definition parse_node_and_connection (node : list value) : outcome frame :=
  let? temp_node := temp_node_of node in
  let? conn_node_list := conn_node_list_of temp_node in
  let? padded := connection_rows conn_node_list in
  let '(data, names) := padded in
  let? conn_node := DataFrame (map (map of_option) data) names in
  let? node_col := getitem_col temp_node "Node" in
  join (Frame ["Node"] [object] (map (fun v => [v]) node_col)) conn_node.

(** ** The assembler: [parse_mileage_node_and_connection] *)

Definition parse_mileage_node_and_connection (fuel : nat) (dat : frame) : outcome frame :=
  let? mileage := iloc_col dat 0 in
  let? node := iloc_col dat 1 in
  let? parsed_mileage := parse_mileage fuel (Series (fst mileage) (snd mileage)) in
  let? parsed_node_and_connection := parse_node_and_connection (snd node) in
  join parsed_mileage parsed_node_and_connection.

(** ** Mileage files: [parse_mileage_file] *)

(** The objects a mileage file holds and the resolver handles: a frame, a
    dict of frames keyed by the label of a section, a column taken out of a
    frame, a string (the name of the line, a note), or [None]. *)
Inductive pyobj : Type :=
| OFrame (t : frame)
| ODict (d : list (string * frame))
| OSeries (cells : list value)
| OStr (s : string)
| ONone.

(** A mileage file is a dict from strings to such objects. Dicts are mutable
    and passed by reference: [heap] gives the dict each reference points
    to. *)
Definition ref : Type := nat.
Definition heap : Type := ref -> gmap string pyobj.

Definition heap_update (h : heap) (r : ref) (d : gmap string pyobj) : heap :=
  fun r' => if Nat.eqb r' r then d else h r'.

(** [{h: parse_mileage_node_and_connection(d) for h, d in dat.items()}] *)
Definition parse_sections (fuel : nat) (d : list (string * frame))
  : outcome (list (string * frame)) :=
  mapM (fun '(label, dat) =>
          let? parsed := parse_mileage_node_and_connection fuel dat in
          Return (label, parsed)) d.

(** [parse_mileage_file(mileage_file, elr)]: the argument is a reference to
    a dict, the result is the reference returned and the heap the call
    leaves. A dict, a string and [None] have no [iloc]; a column refuses the
    two indexers of [iloc[:, 0]]. *)
Definition parse_mileage_file (fuel : nat) (h : heap) (mileage_file : ref) (elr : string)
  : outcome (ref * heap) :=
  match h mileage_file !! elr with
  | None => Raise KeyError
  | Some dat =>
      let? dat' :=
        match dat with
        | ODict d =>
            if Nat.ltb 1 (length d)
            then let? d' := parse_sections fuel d in Return (ODict d')
            else Raise AttributeError
        | OFrame t =>
            let? t' := parse_mileage_node_and_connection fuel t in Return (OFrame t')
        | OSeries cells => Raise IndexError
        | OStr _ => Raise AttributeError
        | ONone => Raise AttributeError
        end in
      Return (mileage_file, heap_update h mileage_file (<[elr := dat']> (h mileage_file)))
  end.

(** ** The connection resolver: [get_conn_end_start_mileages] *)

(** The resolver assigns to two variables, [start_conn_mileage] and
    [end_conn_mileage], inside loops it leaves by [break] and inside a
    [try] block; an assignment made before an exception is raised stays.
    [loaded] records the line references whose mileage file has been asked
    for, in order. *)
Record rstate : Type := RState {
  start_conn_mileage : value;
  end_conn_mileage : value;
  loaded : list string
}.

Definition M (A : Type) : Type := rstate -> outcome A * rstate.

Definition ret {A} (a : A) : M A := fun s => (Return a, s).

Definition bind {A B} (m : M A) (f : A -> M B) : M B :=
  fun s =>
    match m s with
    | (Return a, s') => f a s'
    | (Raise e, s') => (Raise e, s')
    | (OutOfFuel, s') => (OutOfFuel, s')
    end.

Notation "'do' x <- c1 ; c2" := (bind c1 (fun x => c2))
  (at level 10, x name, c1 at level 100, c2 at level 200).
Notation "'do_' c1 ; c2" := (bind c1 (fun _ => c2))
  (at level 10, c1 at level 100, c2 at level 200).

(** An outcome that does not touch the state. *)
Definition lift {A} (o : outcome A) : M A := fun s => (o, s).

Definition set_start (v : value) : M unit :=
  fun s => (Return tt, RState v (end_conn_mileage s) (loaded s)).

Definition set_end (v : value) : M unit :=
  fun s => (Return tt, RState (start_conn_mileage s) v (loaded s)).

Definition is_None (v : value) : bool :=
  match v with
  | VNone => true
  | _ => false
  end.

(** [start_conn_mileage is not None and end_conn_mileage is not None] *)
Definition both_found : M bool :=
  fun s => (Return (negb (is_None (start_conn_mileage s))
                    && negb (is_None (end_conn_mileage s))), s).

(** A computation that asks the store for nothing leaves [loaded] as it
    is. *)
Definition keeps_loaded {A} (m : M A) : Prop :=
  forall s, loaded (snd (m s)) = loaded s.

(** How the body of a loop ends: with the next iteration or with [break]. *)
Inductive ctrl : Type := Next | Break.

Fixpoint for_ {X} (xs : list X) (body : X -> M ctrl) : M unit :=
  match xs with
  | [] => ret tt
  | x :: xs' =>
      do c <- body x;
      match c with
      | Break => ret tt
      | Next => for_ xs' body
      end
  end.

(** [if start_conn_mileage is not None and end_conn_mileage is not None: break] *)
Definition break_if_both_found : M ctrl :=
  do b <- both_found;
  ret (if b then Break else Next).

(** [try: body except (TypeError, AttributeError): pass] *)
Definition try_pass (body : M unit) : M unit :=
  fun s =>
    match body s with
    | (Raise TypeError, s') => (Return tt, s')
    | (Raise AttributeError, s') => (Return tt, s')
    | r => r
    end.

(** [obj[k]] *)
Definition subscript (o : pyobj) (k : string) : outcome pyobj :=
  match o with
  | ODict d =>
      match List.find (fun kv => String.eqb (fst kv) k) d with
      | Some kv => Return (OFrame (snd kv))
      | None => Raise KeyError
      end
  | OFrame t => let? cells := getitem_col t k in Return (OSeries cells)
  | OSeries _ => Raise KeyError
  | OStr _ => Raise TypeError
  | ONone => Raise TypeError
  end.

(** The selection of a section: for a dict of sections, each key that starts
    with [Usual] or [New] replaces the variable by its entry at that key;
    the keys are those of the dict the loop started on. *)
Fixpoint select_keys (keys : list string) (file : pyobj) : outcome pyobj :=
  match keys with
  | [] => Return file
  | k :: keys' =>
      if Re.is_match (Re.re_match Pat.usual_or_new k)
      then let? file' := subscript file k in select_keys keys' file'
      else select_keys keys' file
  end.

Definition select_section (file : pyobj) : outcome pyobj :=
  match file with
  | ODict d => select_keys (map fst d) file
  | _ => Return file
  end.

(** [file.columns]: only a frame has columns. *)
Definition as_frame (file : pyobj) : outcome frame :=
  match file with
  | OFrame t => Return t
  | _ => Raise AttributeError
  end.

(** [[c for c in file.columns if re.match('^Connection', c)]] *)
Definition is_connection_name (c : string) : bool :=
  Re.is_match (Re.re_match Pat.connection_col c).

Definition connection_columns (t : frame) : list string :=
  List.filter is_connection_name (columns t).

(** [file[col].dropna()]: the cells that are not null, each with its row
    label. *)
Definition dropna (cells : list value) : list (nat * value) :=
  List.filter (fun iv => negb (isnull (snd iv))) (imap (fun i v => (i, v)) cells).

Definition conn_column (t : frame) (col : string) : outcome (list (nat * value)) :=
  let? cells := getitem_col t col in
  Return (dropna cells).

(** [file.Mileage.loc[i]] *)
Definition mileage_at (t : frame) (i : nat) : outcome value :=
  let? mileage := getattr_col t "Mileage" in
  match mileage !! i with
  | Some v => Return v
  | None => Raise KeyError
  end.

(** [elr in cell]: a substring test on a string, a test on the column names
    of a frame; [None] and floats are not containers. *)
Definition py_in (elr : string) (cell : value) : outcome bool :=
  match cell with
  | VStr s => Return (PyStr.contains elr s)
  | VFrame cols _ _ => Return (existsb (String.eqb elr) cols)
  | _ => Raise TypeError
  end.

(** [elr == cell] *)
Definition py_eq (elr : string) (cell : value) : bool :=
  match cell with
  | VStr s => String.eqb elr s
  | _ => false
  end.

(** [re.match(r, cell)] and [re.search(r, cell)] want a string. *)
Definition match_cell (r : Re.regex) (cell : value) : outcome (option Re.match_object) :=
  match cell with
  | VStr s => Return (Re.re_match r s)
  | _ => Raise TypeError
  end.

Definition search_cell (r : Re.regex) (cell : value) : outcome (option Re.match_object) :=
  match cell with
  | VStr s => Return (Re.re_search r s)
  | _ => Raise TypeError
  end.

(** [m.group()], where [m] may be [None]. *)
Definition group_of (m : option Re.match_object) : outcome string :=
  match m with
  | Some m => Return (Re.group m)
  | None => Raise AttributeError
  end.

(** The candidate link line of a cell (lines 335 to 338): the word before a
    bracketed mileage if the cell has one, the whole cell otherwise. *)
Definition link_candidate (text : string) : string :=
  match Re.re_search Pat.elr_before_mileage text with
  | Some m => Re.group m
  | None => text
  end.

Section Resolver.

(** The two collaborators: the store of mileage files, which returns a dict
    or [None] or raises, and the conversion of a "miles.chains" text. *)
Variable get_mileage_file : string -> bool -> outcome (option (gmap string pyobj)).
Variable miles_chains_to_mileage : string -> outcome value.

(** [get_mileage_file(elr, update)[elr]] *)
Definition load (elr : string) (update : bool) : M pyobj :=
  fun s =>
    let s' := RState (start_conn_mileage s) (end_conn_mileage s) (loaded s ++ [elr]) in
    match get_mileage_file elr update with
    | Return (Some d) =>
        match d !! elr with
        | Some o => (Return o, s')
        | None => (Raise KeyError, s')
        end
    | Return None => (Raise TypeError, s')
    | Raise e => (Raise e, s')
    | OutOfFuel => (OutOfFuel, s')
    end.

(** [miles_chains_to_mileage(re.search('(?<=\w \()\d+\.\d+', cell).group())] *)
Definition stated_mileage (cell : value) : outcome value :=
  let? m := search_cell Pat.mileage_after_elr cell in
  let? text := group_of m in
  miles_chains_to_mileage text.

(** The scan of the end line's table (lines 316 to 330). *)
Definition scan_end_table (start_elr end_elr : string) (update : bool) : M unit :=
  do file <- load end_elr update;
  do file <- lift (select_section file);
  do end_elr_mileage_file <- lift (as_frame file);
  for_ (connection_columns end_elr_mileage_file) (fun end_conn_col =>
    do end_conn <- lift (conn_column end_elr_mileage_file end_conn_col);
    do_ for_ end_conn (fun jv =>
          do found <- lift (py_in start_elr (snd jv));
          if found
          then do v <- lift (mileage_at end_elr_mileage_file (fst jv));
               do_ set_end v;
               ret Break
          else ret Next);
    break_if_both_found).

(** The scan of a link line's table (lines 342 to 365), inside the [try]. *)
Definition scan_link_table (start_elr end_elr link_elr : string) (update : bool) : M unit :=
  do file <- load link_elr update;
  do file <- lift (select_section file);
  do link_elr_mileage_file <- lift (as_frame file);
  for_ (connection_columns link_elr_mileage_file) (fun link_conn_col =>
    do link_conn <- lift (conn_column link_elr_mileage_file link_conn_col);
    do_ for_ link_conn (fun lv =>
          do found <- lift (py_in start_elr (snd lv));
          if found
          then do v <- lift (mileage_at link_elr_mileage_file (fst lv));
               do_ set_start v;
               ret Break
          else ret Next);
    do_ for_ link_conn (fun lv =>
          do found <- lift (py_in end_elr (snd lv));
          if found
          then do m <- lift (match_cell Pat.elr_before_mileage (snd lv));
               do_ (if Re.is_match m
                    then do v <- lift (stated_mileage (snd lv)); set_end v
                    else if py_eq end_elr (snd lv)
                    then do v <- lift (mileage_at link_elr_mileage_file (fst lv)); set_end v
                    else ret tt);
               ret Break
          else ret Next);
    break_if_both_found).

(** The [else] branch of the scan of the start table (lines 335 to 369): the
    cell does not contain [end_elr]. [re.search] refuses a cell that is not
    a string; where it finds nothing, [.group()] raises the [AttributeError]
    that the first [try] turns into [link_elr = start_conn[i]]. *)
Definition try_link (start_elr end_elr : string) (update : bool) (cell : value) : M unit :=
  match cell with
  | VStr text =>
      let link_elr := link_candidate text in
      if Re.is_match (Re.re_match Pat.link_elr_shape link_elr)
      then try_pass (scan_link_table start_elr end_elr link_elr update)
      else ret tt
  | _ => lift (Raise TypeError)
  end.

(** The body of the loop over the rows of a connection column of the start
    table (lines 309 to 372). *)
Definition scan_start_cell (start_elr end_elr : string) (update : bool)
           (start_elr_mileage_file : frame) (iv : nat * value) : M ctrl :=
  do found <- lift (py_in end_elr (snd iv));
  if found
  then
    do v <- lift (mileage_at start_elr_mileage_file (fst iv));
    do_ set_start v;
    do m <- lift (match_cell Pat.elr_before_mileage (snd iv));
    if Re.is_match m
    then do e <- lift (stated_mileage (snd iv));
         do_ set_end e;
         ret Break
    else if py_eq end_elr (snd iv)
    then do_ scan_end_table start_elr end_elr update;
         do b <- both_found;
         if b then ret Break else break_if_both_found
    else break_if_both_found
  else
    do_ try_link start_elr end_elr update (snd iv);
    break_if_both_found.

Definition get_conn_end_start_mileages (start_elr end_elr : string) (update : bool)
  : M (value * value) :=
  do file <- load start_elr update;
  do file <- lift (select_section file);
  do start_elr_mileage_file <- lift (as_frame file);
  let start_conn_cols := connection_columns start_elr_mileage_file in
  do_ set_start VNone;
  do_ set_end VNone;
  do_ for_ start_conn_cols (fun start_conn_col =>
        do start_conn <- lift (conn_column start_elr_mileage_file start_conn_col);
        do_ for_ start_conn
              (scan_start_cell start_elr end_elr update start_elr_mileage_file);
        break_if_both_found);
  fun s =>
    if is_None (start_conn_mileage s) || is_None (end_conn_mileage s)
    then (Return (VNone, VNone), RState VNone VNone (loaded s))
    else (Return (start_conn_mileage s, end_conn_mileage s), s).

(** A call of the resolver, from a state in which nothing has been loaded:
    its outcome and the line references it asked the store for. *)
Definition resolve (start_elr end_elr : string) (update : bool)
  : outcome (value * value) * list string :=
  let '(r, s) := get_conn_end_start_mileages start_elr end_elr update
                   (RState VNone VNone []) in
  (r, loaded s).

End Resolver.

(** ** Reading a parsed table, and the tables of the examples *)

(** The cell of a row under a named column. *)
Definition cell_of (t : frame) (row : list value) (col : string) : option value :=
  match index_of col (columns t) with
  | Some i => row !! i
  | None => None
  end.

(** The connection list of the specification's scenario, and a description
    that carries it. *)
Definition ashton_connections : string :=
  "Ashton Moss North Junction and Guide Bridge Junction and Denton Junction".

Definition ashton_description : string :=
  ("Stalybridge Junction with " ++ ashton_connections)%string.

(** A column of two descriptions, one with two connections and one with
    none, and the table parsed from it. *)
Definition fan_out_node : list value := [VStr "A with B and C"; VStr "D"].

Definition fan_out_table : frame :=
  Frame ["Node"; "Connection1"; "Connection2"] [object; object; object]
        [[VStr "A"; VStr "B"; VStr "C"]; [VStr "D"; VNone; VNone]].

(** A raw table without rows, as [pd.read_table] gives it for a line whose
    file has a header only, and what the assembler makes of it. *)
Definition empty_raw_table : frame :=
  Frame ["AAA"; "Line name"] [float64; object] [].

Definition empty_parsed_table : frame :=
  Frame ["Mileage"; "Mileage_Note"; "Node"; "Connection1"; "Connection2"]
        [object; object; object; object; object] [].

(** A mileage file as [scrape_mileage_file] builds it before parsing, at
    reference 0 of a heap. *)
Definition raw_mileage_file : gmap string pyobj :=
  <["AAA" := OFrame empty_raw_table]>
    (<["Line" := OStr "Line name"]> (<["Note" := ONone]> ∅)).

Definition raw_heap : heap := fun _ => raw_mileage_file.

(** A frame of two mileages, as a mileage parser would return it for a column
    of two cells. *)
Definition two_mileages : frame :=
  Frame ["Mileage"; "Mileage_Note"] [object; object]
        [[VStr "0.00"; VStr ""]; [VStr "1.35"; VStr "Approximate"]].

Definition parsed_heap : heap :=
  heap_update raw_heap 0 (<["AAA" := OFrame empty_parsed_table]> (raw_heap 0)).

(** The table of a line [AAA] whose only waypoint connects to [link], the
    table of a link line that meets both [AAA] and [BBB], and a store that
    holds the first under [AAA] and the second under the name [link]. *)
Definition start_table (link : string) : frame :=
  Frame ["Mileage"; "Mileage_Note"; "Node"; "Connection1"; "Connection2"]
        [object; object; object; object; object]
        [[VStr "12.34"; VStr ""; VStr "Trafford Park Junction"; VStr link; VNone]].

Definition link_table : frame :=
  Frame ["Mileage"; "Mileage_Note"; "Node"; "Connection1"; "Connection2"]
        [object; object; object; object; object]
        [[VStr "1.00"; VStr ""; VStr "Castlefield Junction"; VStr "AAA"; VNone];
         [VStr "2.00"; VStr ""; VStr "Ordsall Lane Junction"; VStr "BBB"; VNone]].

Definition link_store (link : string) (elr : string) (update : bool)
  : outcome (option (gmap string pyobj)) :=
  if String.eqb elr "AAA" then Return (Some {[ "AAA" := OFrame (start_table link) ]})
  else if String.eqb elr link then Return (Some {[ link := OFrame link_table ]})
  else Return None.

(** A stand-in for [miles_chains_to_mileage] that returns the text it is
    given. *)
Definition keep_text (text : string) : outcome value := Return (VStr text).

(** ** Notions used to state further properties *)

(** The pieces a description falls into: what [parse_node_and_connection]
    hands to the constructor of [temp_node] for it (the description
    preprocessed, the three replacements made, split on [' with ']). *)
Definition pieces (n : string) : list string :=
  node_and_connection (preprocess_node n).

(** A list of connections as the loop over [temp_node.Connection] builds
    them: [[None]], or strings only and one at least. *)
Definition connections_or_none (c : list (option string)) : Prop :=
  c = [None] \/ (c <> [] /\ Forall (fun x => x <> None) c).

(** A cell of [temp_node] is a string or [None]. *)
Definition str_or_None (v : value) : Prop :=
  match v with
  | VStr _ | VNone => True
  | _ => False
  end.

(** A computation that asks the store only for line references that satisfy
    [P]: what it adds to [loaded] satisfies [P]. *)
Definition asks_only (P : string -> Prop) {A} (m : M A) : Prop :=
  forall s, exists l, loaded (snd (m s)) = loaded s ++ l /\ Forall P l.

(** The line references the link fallback accepts: those the pattern
    ['[A-Z]{3}(0-9)?$'] matches. *)
Definition link_shaped (elr : string) : Prop :=
  Re.is_match (Re.re_match Pat.link_elr_shape elr) = true.

(** The labels of sections the resolver looks for: those that
    ['^Usual|^New'] matches. *)
Definition is_section_choice (label : string) : bool :=
  Re.is_match (Re.re_match Pat.usual_or_new label).

(** A store that holds one line, [AAA], whose file has the given sections. *)
Definition sectioned_store (d : list (string * frame)) (elr : string) (update : bool)
  : outcome (option (gmap string pyobj)) :=
  if String.eqb elr "AAA" then Return (Some {[ "AAA" := ODict d ]})
  else Return None.

(** The table of a line [BBB] whose only waypoint connects to [AAA], and a
    store that holds it beside the table of [AAA] that connects to [BBB]. *)
Definition end_table : frame :=
  Frame ["Mileage"; "Mileage_Note"; "Node"; "Connection1"; "Connection2"]
        [object; object; object; object; object]
        [[VStr "7.05"; VStr ""; VStr "Glazebrook East Junction"; VStr "AAA"; VNone]].

Definition pair_store (elr : string) (update : bool)
  : outcome (option (gmap string pyobj)) :=
  if String.eqb elr "AAA" then Return (Some {[ "AAA" := OFrame (start_table "BBB") ]})
  else if String.eqb elr "BBB" then Return (Some {[ "BBB" := OFrame end_table ]})
  else Return None.

(** The state of a query in which neither mileage has been found. *)
Definition nothing_found (s : rstate) : Prop :=
  start_conn_mileage s = VNone /\ end_conn_mileage s = VNone.


(** A store that holds the table of the line [AAA] only, whose waypoint
    connects to [BBB]: no other line can be fetched. *)
Definition lone_store (elr : string) (update : bool)
  : outcome (option (gmap string pyobj)) :=
  if String.eqb elr "AAA" then Return (Some {[ "AAA" := OFrame (start_table "BBB") ]})
  else Return None.

(** The table of a line [AAA] with a waypoint of unknown mileage (the cell
    left blank in the file is a NaN, which the mileage parser keeps and
    notes [Unknown]) that connects to [BBB] at 3.42, and a store that holds
    that table only. *)
Definition unknown_mileage_table : frame :=
  Frame ["Mileage"; "Mileage_Note"; "Node"; "Connection1"; "Connection2"]
        [object; object; object; object; object]
        [[VStr "0.00"; VStr ""; VStr "Trafford Park Junction"; VNone; VNone];
         [VFloat nan; VStr "Unknown"; VStr "Orton Junction"; VStr "BBB (3.42)"; VNone]].

Definition unknown_mileage_store (elr : string) (update : bool)
  : outcome (option (gmap string pyobj)) :=
  if String.eqb elr "AAA" then Return (Some {[ "AAA" := OFrame unknown_mileage_table ]})
  else Return None.

(** A raw table of two waypoints, the second with an approximate mileage, the
    mileage file that holds it before parsing, and a heap with that file
    behind every reference. *)
Definition two_row_raw_table : frame :=
  Frame ["AAA"; "Line name"] [object; object]
        [[VStr "0.00"; VStr "Ashton Junction with BBB"];
         [VStr "~3.05"; VStr "Denton Junction"]].

Definition two_row_mileage_file : gmap string pyobj :=
  <["AAA" := OFrame two_row_raw_table]>
    (<["Line" := OStr "Line name"]> (<["Note" := ONone]> ∅)).

Definition two_row_heap : heap := fun _ => two_row_mileage_file.
(** * Properties *)

(** ** Outcomes *)

Lemma obind_Return {A B} (x : outcome A) (f : A -> outcome B) (b : B) :
  obind x f = Return b -> exists a, x = Return a /\ f a = Return b.
Proof.
  destruct x as [a| |]; simpl; intros H; try discriminate.
  exists a. split; [reflexivity | exact H].
Qed.

Lemma mapM_Return_cons {A B} (f : A -> outcome B) (x : A) (xs : list A) (ys : list B) :
  mapM f (x :: xs) = Return ys ->
  exists y ys', f x = Return y /\ mapM f xs = Return ys' /\ ys = y :: ys'.
Proof.
  simpl. intros H.
  apply obind_Return in H as (y & Hy & H).
  apply obind_Return in H as (ys' & Hys & H).
  exists y, ys'. repeat split; congruence.
Qed.

Lemma mapM_length {A B} (f : A -> outcome B) (xs : list A) (ys : list B) :
  mapM f xs = Return ys -> length ys = length xs.
Proof.
  revert ys. induction xs as [|x xs IH]; intros ys H.
  - simpl in H. injection H as <-. reflexivity.
  - apply mapM_Return_cons in H as (y & ys' & _ & Hys & ->).
    simpl. f_equal. apply IH, Hys.
Qed.

Lemma mapM_finishes {A B} (f : A -> outcome B) (xs : list A) :
  (forall x, f x <> OutOfFuel) -> mapM f xs <> OutOfFuel.
Proof.
  intros Hf. induction xs as [|x xs IH]; simpl; [discriminate|].
  specialize (Hf x). destruct (f x); simpl; try congruence.
  destruct (mapM f xs); simpl; congruence.
Qed.

(** ** The mileage column *)

(** The recursive call of [parse_mileage] on a cell never returns: a cell
    either has no [dtype] or, being a numpy scalar, has no length. *)
Lemma parse_mileage_cell_not_returned (fuel : nat) (m : value) (t : frame) :
  parse_mileage fuel (Scalar m) <> Return t.
Proof.
  destruct fuel as [|fuel]; simpl; [discriminate|].
  destruct m; simpl; discriminate.
Qed.

Lemma parse_mileage_cell_raises (fuel : nat) (m : value) :
  exists e, parse_mileage (S fuel) (Scalar m) = Raise e.
Proof.
  destruct m; simpl; eauto.
Qed.

Lemma note_cell_finishes (m : value) : note_cell m <> OutOfFuel.
Proof.
  unfold note_cell. destruct m; simpl; try discriminate.
  - destruct (is_nan f); discriminate.
  - destruct (is_nan f); discriminate.
  - destruct (_ && _); [discriminate|]. destruct (PyStr.startswith _ _); discriminate.
Qed.

(** Recursion depth 2 is enough for any argument: the call on a column makes
    calls on cells, and those make none. *)
Lemma parse_mileage_halts (fuel : nat) (mileage : pyarg) :
  parse_mileage (S (S fuel)) mileage <> OutOfFuel.
Proof.
  assert (Hcells : forall l : list value,
             mapM (fun m => let? t := parse_mileage (S fuel) (Scalar m) in Return (VFrameOf t)) l
             <> OutOfFuel).
  { intros l. apply mapM_finishes. intros m.
    destruct (parse_mileage_cell_raises fuel m) as [e ->]. discriminate. }
  assert (Hframe : forall l1 l2, DataFrame2 "Mileage" l1 "Mileage_Note" l2 <> OutOfFuel).
  { intros l1 l2. unfold DataFrame2. destruct (Nat.eqb _ _); discriminate. }
  destruct mileage as [dt cells | v].
  - cbn [parse_mileage get_dtype obind]. destruct dt.
    + cbn [py_len py_iter obind]. specialize (Hcells cells).
      destruct (mapM _ cells); cbn [obind];
        [apply Hframe | discriminate | congruence].
    + cbn [py_iter obind].
      pose proof (mapM_finishes note_cell cells note_cell_finishes) as Hn.
      destruct (mapM note_cell cells) as [pairs| |]; cbn [obind];
        [| discriminate | congruence].
      specialize (Hcells (map fst pairs)).
      destruct (mapM _ (map fst pairs)); cbn [obind];
        [apply Hframe | discriminate | congruence].
  - destruct (parse_mileage_cell_raises (S fuel) v) as [e ->]. discriminate.
Qed.

(** C3 -- the four cells of the specification's example. The loop of
    [parse_mileage] strips the annotation of each and notes its class, but
    the call [parse_mileage(m)] that follows on the stripped cell raises
    [AttributeError] (a string and [None] have no [dtype]), so no column that
    holds one of these cells is parsed: the pairs [(3.05, Approximate)],
    [(8.67, Reference)], [(None, Unknown)] and [(3.05, '')] are never
    returned. *)
Theorem parse_mileage_example_cells_raise (fuel : nat) :
  note_cell (VStr "~3.05") = Return (VStr "3.05", "Approximate") /\
  note_cell (VStr "(8.67)") = Return (VStr "8.67", "Reference") /\
  note_cell VNone = Return (VNone, "Unknown") /\
  note_cell (VStr "3.05") = Return (VStr "3.05", "") /\
  parse_mileage (S (S fuel)) (Series object [VStr "~3.05"]) = Raise AttributeError /\
  parse_mileage (S (S fuel)) (Series object [VStr "(8.67)"]) = Raise AttributeError /\
  parse_mileage (S (S fuel)) (Series object [VNone]) = Raise AttributeError /\
  parse_mileage (S (S fuel)) (Series object [VStr "3.05"]) = Raise AttributeError.
Proof.
  repeat split; reflexivity.
Qed.

(** [parse_mileage] returns for no column that has a cell, whatever the
    depth of recursion allowed. *)
Lemma parse_mileage_cells_not_returned
      (fuel : nat) (dt : dtype) (c : value) (cells : list value) (t : frame) :
  parse_mileage fuel (Series dt (c :: cells)) <> Return t.
Proof.
  destruct fuel as [|fuel]; [discriminate|].
  cbn [parse_mileage get_dtype obind]. intros H.
  apply obind_Return in H as ([temp notes] & Hnoted & H).
  apply obind_Return in H as (temp' & Htemp & _).
  assert (exists m temp0, temp = m :: temp0) as (m & temp0 & ->).
  { destruct dt.
    - cbn in Hnoted. injection Hnoted as <- _. eauto.
    - cbn [py_iter obind] in Hnoted.
      apply obind_Return in Hnoted as (pairs & Hpairs & Hnoted).
      apply mapM_Return_cons in Hpairs as (p & ps & _ & _ & ->).
      injection Hnoted as <- _. simpl. eauto. }
  apply mapM_Return_cons in Htemp as (y & ys & Hy & _ & _).
  apply obind_Return in Hy as (t0 & Ht0 & _).
  exact (parse_mileage_cell_not_returned _ _ _ Ht0).
Qed.

(** C7 -- on every column that has a cell, [parse_mileage] ends by raising
    an exception: the recursion does end (depth 2 is enough), but it ends in
    the call on the first cell that is reached, which raises; no
    result is produced, so the function is not total on columns. *)
Theorem parse_mileage_raises_on_cells
        (fuel : nat) (dt : dtype) (c : value) (cells : list value) :
  exists e, parse_mileage (S (S fuel)) (Series dt (c :: cells)) = Raise e.
Proof.
  pose proof (parse_mileage_halts fuel (Series dt (c :: cells))) as Hh.
  destruct (parse_mileage (S (S fuel)) (Series dt (c :: cells))) as [t|e|] eqn:E.
  - exfalso. exact (parse_mileage_cells_not_returned _ _ _ _ _ E).
  - eauto.
  - congruence.
Qed.

(** The only column [parse_mileage] returns for is the empty one. *)
Lemma parse_mileage_empty (fuel : nat) (dt : dtype) :
  parse_mileage (S fuel) (Series dt [])
  = Return (Frame ["Mileage"; "Mileage_Note"] [object; object] []).
Proof.
  destruct dt; reflexivity.
Qed.

(** ** Frames *)

Lemma length_pad_to {X} (n : nat) (fill : X) (row : list X) :
  length row <= n -> length (pad_to n fill row) = n.
Proof.
  intros H. unfold pad_to. rewrite length_app, repeat_length. lia.
Qed.

Lemma max_len_bound {X} (data : list (list X)) (row : list X) :
  In row data -> length row <= max_len data.
Proof.
  unfold max_len. induction data as [|r data IH]; simpl; [tauto|].
  intros [-> | H]; [lia|]. specialize (IH H). lia.
Qed.

(** A frame built by the constructor has the names it was given, one row per
    row of the data, and rows as wide as the names are many. *)
Lemma DataFrame_shape (data : list (list value)) (cols : list string) (t : frame) :
  DataFrame data cols = Return t ->
  columns t = cols /\ nrows t = length data /\
  Forall (fun row => length row = length cols) (rows t).
Proof.
  unfold DataFrame, nrows. destruct data as [|r data].
  - intros H. injection H as <-. simpl. auto.
  - remember (r :: data) as d eqn:Hd. clear Hd.
    destruct (Nat.eqb _ _) eqn:E; [|discriminate].
    apply Nat.eqb_eq in E. intros H. injection H as <-.
    cbn [columns rows].
    split; [reflexivity|]. split; [apply length_map|].
    apply List.Forall_forall. intros row Hrow.
    apply in_map_iff in Hrow as (row0 & <- & Hin).
    rewrite <- E. apply length_pad_to. now apply max_len_bound.
Qed.

Lemma length_column_at (t : frame) (i : nat) : length (column_at t i) = nrows t.
Proof. unfold column_at, nrows. apply length_map. Qed.

Lemma getitem_col_length (t : frame) (name : string) (cells : list value) :
  getitem_col t name = Return cells -> length cells = nrows t.
Proof.
  unfold getitem_col. destruct (index_of _ _); [|discriminate].
  intros H. injection H as <-. apply length_column_at.
Qed.

Lemma getattr_col_length (t : frame) (name : string) (cells : list value) :
  getattr_col t name = Return cells -> length cells = nrows t.
Proof.
  unfold getattr_col. destruct (index_of _ _); [|discriminate].
  intros H. injection H as <-. apply length_column_at.
Qed.

(** The join keeps the rows of the left frame, each completed to the width
    of both; it raises only for overlapping names, never for a difference in
    the number of rows. *)
Lemma join_shape (left right t : frame) :
  join left right = Return t ->
  columns t = columns left ++ columns right /\
  nrows t = nrows left /\
  forall i row, rows t !! i = Some row ->
    exists lrow, rows left !! i = Some lrow /\
      row = lrow ++ match rows right !! i with
                    | Some rrow => rrow
                    | None => repeat NaN (length (columns right))
                    end.
Proof.
  unfold join, nrows. destruct (overlap _ _); [discriminate|].
  intros H. injection H as <-. simpl.
  split; [reflexivity|]. split; [apply length_imap|].
  intros i row Hrow. rewrite list_lookup_imap in Hrow.
  destruct (rows left !! i) as [lrow|]; [|discriminate].
  simpl in Hrow. injection Hrow as <-. eauto.
Qed.

Lemma join_returns (left right : frame) :
  overlap (columns left) (columns right) = false ->
  exists t, join left right = Return t /\ nrows t = nrows left.
Proof.
  intros H. unfold join. rewrite H. eexists. split; [reflexivity|].
  unfold nrows. simpl. apply length_imap.
Qed.

(** ** The node column *)

Lemma parse_node_and_connection_stages (node : list value) (t : frame) :
  parse_node_and_connection node = Return t ->
  exists temp_node conn_node_list data names conn_node node_col,
    temp_node_of node = Return temp_node /\
    conn_node_list_of temp_node = Return conn_node_list /\
    connection_rows conn_node_list = Return (data, names) /\
    DataFrame (map (map of_option) data) names = Return conn_node /\
    getitem_col temp_node "Node" = Return node_col /\
    join (Frame ["Node"] [object] (map (fun v => [v]) node_col)) conn_node = Return t.
Proof.
  unfold parse_node_and_connection. intros H.
  apply obind_Return in H as (temp_node & H1 & H).
  apply obind_Return in H as (conn_node_list & H2 & H).
  apply obind_Return in H as ([data names] & H3 & H).
  apply obind_Return in H as (conn_node & H4 & H).
  apply obind_Return in H as (node_col & H5 & H).
  exists temp_node, conn_node_list, data, names, conn_node, node_col. auto 10.
Qed.

Lemma fan_out_loop_length (idxs : list nat) (l fanned : list (list (option string))) :
  fan_out_loop idxs l = Return fanned -> length fanned = length l.
Proof.
  revert l. induction idxs as [|i idxs IH]; intros l H; simpl in H.
  - now injection H as <-.
  - destruct (l !! i) as [row|]; [|discriminate].
    apply obind_Return in H as (row' & _ & H).
    apply IH in H. now rewrite length_insert in H.
Qed.

Lemma is_connection_name_prefix (rest : string) :
  is_connection_name ("Connection" ++ rest) = true.
Proof. reflexivity. Qed.

Lemma filter_all {X} (f : X -> bool) (l : list X) :
  (forall x, In x l -> f x = true) -> List.filter f l = l.
Proof.
  induction l as [|x l IH]; simpl; intros H; [reflexivity|].
  rewrite (H x) by auto. f_equal. apply IH. auto.
Qed.

Lemma filter_connection_names (no_conn : nat) :
  List.filter is_connection_name (connection_names no_conn) = connection_names no_conn.
Proof.
  apply filter_all. intros c Hc. unfold connection_names in Hc.
  apply in_map_iff in Hc as (n & <- & _). apply is_connection_name_prefix.
Qed.

Lemma length_connection_names (no_conn : nat) :
  length (connection_names no_conn) = no_conn.
Proof. unfold connection_names. now rewrite length_map, length_seq. Qed.

(** What [connection_rows] hands to the constructor: one list per row, each
    as long as the names are many, and names that all are connection
    names. *)
Lemma connection_rows_shape (conn_node_list data : list (list (option string)))
      (names : list string) :
  connection_rows conn_node_list = Return (data, names) ->
  length data = length conn_node_list /\
  Forall (fun c => length c = length names) data /\
  List.filter is_connection_name names = names.
Proof.
  unfold connection_rows.
  destruct (forallb _ conn_node_list) eqn:Hall.
  - intros H. injection H as <- <-.
    split; [apply length_map|]. split; [|reflexivity].
    apply List.Forall_forall. intros c Hc.
    apply in_map_iff in Hc as (c0 & <- & Hc0).
    rewrite forallb_forall in Hall. specialize (Hall c0 Hc0).
    apply Nat.eqb_eq in Hall. rewrite length_app, Hall. reflexivity.
  - intros H. apply obind_Return in H as (fanned & Hf & H).
    injection H as <- <-.
    split; [rewrite length_map; eapply fan_out_loop_length; eauto|].
    split; [|apply filter_connection_names].
    apply List.Forall_forall. intros c Hc.
    apply in_map_iff in Hc as (c0 & <- & Hc0).
    rewrite length_connection_names. apply length_pad_to.
    now apply max_len_bound.
Qed.

Lemma connection_columns_of_node_frame (t : frame) (names : list string) :
  columns t = ["Node"] ++ names ->
  List.filter is_connection_name names = names ->
  connection_columns t = names.
Proof.
  intros Hc Hn. unfold connection_columns. rewrite Hc. exact Hn.
Qed.

(** C9 -- rectangularity. In a table that [parse_node_and_connection]
    returns, the columns are [Node] followed by the connection columns, and
    every row has one cell for the node and one cell for each connection
    column; this holds in the branch where every list has one element and in
    the branch that fans out alike. The lists of connections the code hands
    to the [DataFrame] constructor are themselves all as long as the
    connection columns are many. *)
Theorem connection_table_rectangular (node : list value) (t : frame) :
  parse_node_and_connection node = Return t ->
  columns t = "Node" :: connection_columns t /\
  Forall (fun row => length row = S (length (connection_columns t))) (rows t) /\
  exists temp_node conn_node_list data,
    temp_node_of node = Return temp_node /\
    conn_node_list_of temp_node = Return conn_node_list /\
    connection_rows conn_node_list = Return (data, connection_columns t) /\
    Forall (fun c => length c = length (connection_columns t)) data.
Proof.
  intros H.
  apply parse_node_and_connection_stages in H
    as (temp_node & conn_node_list & data & names & conn_node & node_col
        & H1 & H2 & H3 & H4 & H5 & H6).
  pose proof (connection_rows_shape _ _ _ H3) as (Hlen & Hdata & Hnames).
  pose proof (DataFrame_shape _ _ _ H4) as (Hcols & Hrows & Hwide).
  pose proof (join_shape _ _ _ H6) as (Hjc & Hjr & Hjrow).
  cbn [columns] in Hjc. rewrite Hcols in Hjc.
  assert (Hcc : connection_columns t = names)
    by (now apply connection_columns_of_node_frame).
  rewrite Hcc. split; [exact Hjc|]. split.
  - apply Forall_lookup. intros i row Hrow.
    apply Hjrow in Hrow as (lrow & Hl & ->). cbn [rows] in Hl.
    rewrite list_lookup_fmap in Hl.
    destruct (node_col !! i) as [v|]; [|discriminate]. injection Hl as <-.
    rewrite length_app. simpl. f_equal.
    destruct (rows conn_node !! i) as [rrow|] eqn:Hr.
    + rewrite Forall_lookup in Hwide. exact (Hwide _ _ Hr).
    + rewrite repeat_length. now rewrite Hcols.
  - exists temp_node, conn_node_list, data. auto.
Qed.

(** ** The matcher *)

Lemma suffix_of_refl (s : string) : suffix_of s s.
Proof. now exists EmptyString. Qed.

Lemma suffix_of_tail (c : ascii) (s : string) : suffix_of s (String c s).
Proof. now exists (String c EmptyString). Qed.

Lemma string_app_assoc (a b c : string) : ((a ++ b) ++ c = a ++ (b ++ c))%string.
Proof.
  induction a as [|x a IH]; [reflexivity|].
  change (String x ((a ++ b) ++ c) = String x (a ++ (b ++ c)))%string.
  now rewrite IH.
Qed.

Lemma suffix_of_trans (a b c : string) : suffix_of a b -> suffix_of b c -> suffix_of a c.
Proof.
  intros [u Hu] [v Hv]. exists (v ++ u)%string.
  rewrite Hv, Hu. symmetry. apply string_app_assoc.
Qed.

Lemma contains_suffix (sub t s : string) :
  suffix_of t s -> String.prefix sub t = true -> PyStr.contains sub s = true.
Proof.
  intros [u ->] Hp. induction u as [|c u IH].
  - change (PyStr.contains sub t = true).
    destruct t; cbn [PyStr.contains]; rewrite Hp; reflexivity.
  - change (String.prefix sub (String c (u ++ t))
            || PyStr.contains sub (u ++ t) = true)%string.
    rewrite IH. apply orb_true_r.
Qed.

(** A successful run has called its continuation, at a position further on
    in the subject. *)
Lemma star_reaches {A} (p : ascii -> bool) (rest pre : string)
      (k : string -> string -> option A) (a : A) :
  Re.star p pre rest k = Some a ->
  exists pre' rest', suffix_of rest' rest /\ k pre' rest' = Some a.
Proof.
  revert pre. induction rest as [|c rest IH]; intros pre H; simpl in H.
  - exists pre, EmptyString. split; [apply suffix_of_refl | exact H].
  - destruct (p c).
    + destruct (Re.star p (String c pre) rest k) as [a'|] eqn:E.
      * injection H as ->. apply IH in E as (pre' & rest' & Hs & Hk).
        exists pre', rest'. split; [|exact Hk].
        eapply suffix_of_trans; [exact Hs | apply suffix_of_tail].
      * exists pre, (String c rest). split; [apply suffix_of_refl | exact H].
    + exists pre, (String c rest). split; [apply suffix_of_refl | exact H].
Qed.

Lemma run_reaches (r : Re.regex) :
  forall (A : Type) (pre rest : string) (k : string -> string -> option A) (a : A),
    Re.run r A pre rest k = Some a ->
    exists pre' rest', suffix_of rest' rest /\ k pre' rest' = Some a.
Proof.
  induction r as [ | c | p | r1 IH1 r2 IH2 | r1 IH1 r2 IH2 | r1 IH1 | p | p | | | r1 IH1 | ps];
    intros A pre rest k a H; simpl in H.
  - exists pre, rest. split; [apply suffix_of_refl | exact H].
  - destruct rest as [|d rest]; [discriminate|].
    destruct (Ascii.eqb c d); [|discriminate].
    exists (String d pre), rest. split; [apply suffix_of_tail | exact H].
  - destruct rest as [|d rest]; [discriminate|].
    destruct (p d); [|discriminate].
    exists (String d pre), rest. split; [apply suffix_of_tail | exact H].
  - apply IH1 in H as (pre1 & rest1 & Hs1 & H).
    apply IH2 in H as (pre2 & rest2 & Hs2 & H).
    exists pre2, rest2. split; [eapply suffix_of_trans; eauto | exact H].
  - destruct (Re.run r1 A pre rest k) as [a'|] eqn:E.
    + injection H as ->. now apply IH1 in E.
    + now apply IH2 in H.
  - destruct (Re.run r1 A pre rest k) as [a'|] eqn:E.
    + injection H as ->. now apply IH1 in E.
    + exists pre, rest. split; [apply suffix_of_refl | exact H].
  - now apply star_reaches in H.
  - destruct rest as [|d rest]; [discriminate|].
    destruct (p d); [|discriminate].
    apply star_reaches in H as (pre' & rest' & Hs & H).
    exists pre', rest'. split; [|exact H].
    eapply suffix_of_trans; [exact Hs | apply suffix_of_tail].
  - destruct pre; [|discriminate].
    exists EmptyString, rest. split; [apply suffix_of_refl | exact H].
  - exists pre, rest. split; [apply suffix_of_refl|].
    destruct rest as [|d [|? ?]]; try discriminate; [exact H|].
    destruct (Ascii.eqb d Re.newline); [exact H | discriminate].
  - destruct (Re.run r1 unit pre rest _); [|discriminate].
    exists pre, rest. split; [apply suffix_of_refl | exact H].
  - destruct (Re.behind ps pre); [|discriminate].
    exists pre, rest. split; [apply suffix_of_refl | exact H].
Qed.

(** A literal only matches where the subject continues with it. *)
Lemma run_Str_prefix (lit : string) :
  forall (A : Type) (pre rest : string) (k : string -> string -> option A) (a : A),
    Re.run (Re.Str lit) A pre rest k = Some a -> String.prefix lit rest = true.
Proof.
  induction lit as [|c lit IH]; intros A pre rest k a H; simpl in H.
  - now destruct rest.
  - destruct rest as [|d rest]; [discriminate|].
    destruct (Ascii.eqb c d) eqn:E; [|discriminate].
    apply Ascii.eqb_eq in E as ->. apply IH in H. simpl.
    destruct (ascii_dec d d); [exact H | congruence].
Qed.

(** The pattern that detects two waypoints needs a ['/'] or an [' and '] in
    the description. *)
Lemma two_nodes_needs_separator (node_x : string) (m : Re.match_object) :
  Re.re_match Pat.two_nodes node_x = Some m ->
  PyStr.contains "/" node_x = true \/ PyStr.contains " and " node_x = true.
Proof.
  unfold Re.re_match, Re.attempt, Pat.two_nodes. intros H.
  cbn [Re.run] in H.
  change (Re.run (Re.Plus Re.word) Re.match_object "" node_x
            (fun pre1 rest1 =>
               Re.run (Re.Star Re.dot) Re.match_object pre1 rest1
                 (fun pre2 rest2 =>
                    Re.run (Re.Opt Pat.paren_mileage) Re.match_object pre2 rest2
                      (fun pre3 rest3 =>
                         Re.run (Re.Alt (Re.Chr "/") (Re.Str " and ")) Re.match_object
                           pre3 rest3
                           (fun pre4 rest4 =>
                              Re.run (Re.Cat (Re.Plus Re.word)
                                        (Re.Cat (Re.Str " with")
                                           (Re.Cat (Re.Cls Pat.space_upper_digit)
                                              (Re.Opt Pat.paren_mileage))))
                                Re.match_object pre4 rest4
                                (fun pre' rest' =>
                                   Some (Re.MatchObject "" node_x pre' rest'))))))
          = Some m) in H.
  apply run_reaches in H as (pre1 & rest1 & Hs1 & H).
  apply run_reaches in H as (pre2 & rest2 & Hs2 & H).
  apply run_reaches in H as (pre3 & rest3 & Hs3 & H).
  assert (Hs : suffix_of rest3 node_x)
    by (eapply suffix_of_trans; [|eassumption]; eapply suffix_of_trans; eassumption).
  cbn [Re.run] in H.
  destruct rest3 as [|d rest3].
  - discriminate.
  - destruct (Ascii.eqb "/" d) eqn:E.
    + apply Ascii.eqb_eq in E as <-. left.
      eapply contains_suffix; [exact Hs|]. now destruct rest3.
    + right. eapply contains_suffix; [exact Hs|].
      change (Re.run (Re.Str " and ") Re.match_object pre3 (String d rest3)
                (fun pre4 rest4 =>
                   Re.run (Re.Cat (Re.Plus Re.word)
                             (Re.Cat (Re.Str " with")
                                (Re.Cat (Re.Cls Pat.space_upper_digit)
                                   (Re.Opt Pat.paren_mileage))))
                     Re.match_object pre4 rest4
                     (fun pre' rest' => Some (Re.MatchObject "" node_x pre' rest')))
              = Some m) in H.
      eapply run_Str_prefix. exact H.
Qed.

Lemma DataFrame_rows (data : list (list value)) (cols : list string) (t : frame) :
  DataFrame data cols = Return t ->
  rows t = map (pad_to (max_len data) VNone) data.
Proof.
  unfold DataFrame. destruct data as [|r data].
  - intros H. now injection H as <-.
  - remember (r :: data) as d. destruct (Nat.eqb _ _); [|discriminate].
    intros H. now injection H as <-.
Qed.

Lemma conn_node_list_of_length (temp_node : frame) (l : list (list (option string))) :
  conn_node_list_of temp_node = Return l -> length l = nrows temp_node.
Proof.
  unfold conn_node_list_of. intros H.
  apply obind_Return in H as (connection & Hc & H).
  apply mapM_length in H. apply getattr_col_length in Hc. congruence.
Qed.

(** C6, as the code has it -- the number of connection columns. In the
    branch that fans out, the connection columns are [Connection1] to
    [ConnectionN] for N the greatest length of a list of connections after
    the fan-out. In the branch where every row has a one-element list (one
    connection, or [None]), the connection columns are [Connection1] and
    [Connection2], and [Connection2] is [None] in every row. *)
Theorem connection_column_count (node : list value) (t : frame) :
  parse_node_and_connection node = Return t ->
  exists temp_node conn_node_list,
    temp_node_of node = Return temp_node /\
    conn_node_list_of temp_node = Return conn_node_list /\
    if forallb (fun c => Nat.eqb (length c) 1) conn_node_list
    then connection_columns t = ["Connection1"; "Connection2"] /\
         Forall (fun row => cell_of t row "Connection2" = Some VNone) (rows t)
    else exists fanned,
        fan_out_loop (multi_indices conn_node_list) conn_node_list = Return fanned /\
        connection_columns t = connection_names (max_len fanned) /\
        length (connection_columns t) = max_len fanned.
Proof.
  intros H.
  apply parse_node_and_connection_stages in H
    as (temp_node & conn_node_list & data & names & conn_node & node_col
        & H1 & H2 & H3 & H4 & H5 & H6).
  exists temp_node, conn_node_list. split; [exact H1|]. split; [exact H2|].
  pose proof (connection_rows_shape _ _ _ H3) as (Hlen & Hdata & Hnames).
  pose proof (DataFrame_shape _ _ _ H4) as (Hcols & Hrows & Hwide).
  pose proof (join_shape _ _ _ H6) as (Hjc & Hjr & Hjrow).
  cbn [columns] in Hjc. rewrite Hcols in Hjc.
  assert (Hcc : connection_columns t = names)
    by (now apply connection_columns_of_node_frame).
  unfold connection_rows in H3.
  destruct (forallb _ conn_node_list) eqn:Hall.
  - injection H3 as <- <-. split; [exact Hcc|].
    apply Forall_lookup. intros i row Hrow.
    apply Hjrow in Hrow as (lrow & Hl & ->). cbn [rows] in Hl.
    rewrite list_lookup_fmap in Hl.
    destruct (node_col !! i) as [v|] eqn:Hv; [|discriminate]. injection Hl as <-.
    apply lookup_lt_Some in Hv.
    apply getitem_col_length in H5. apply conn_node_list_of_length in H2.
    destruct (conn_node_list !! i) as [c|] eqn:Hc;
      [|apply lookup_ge_None in Hc; lia].
    rewrite forallb_forall in Hall.
    assert (Hc1 : length c = 1).
    { apply Nat.eqb_eq, Hall. apply list_elem_of_In. eapply list_elem_of_lookup_2; eauto. }
    destruct c as [|x [|? ?]]; try discriminate.
    rewrite (DataFrame_rows _ _ _ H4).
    rewrite !list_lookup_fmap, Hc. cbn [fmap option_fmap option_map].
    unfold cell_of. rewrite Hjc. reflexivity.
  - apply obind_Return in H3 as (fanned & Hf & H3). injection H3 as <- <-.
    exists fanned. split; [exact Hf|]. split; [exact Hcc|].
    rewrite Hcc. apply length_connection_names.
Qed.

(** C6, as stated, fails: the table of the single description
    ['A with B'] has one connection in its only row, and two connection
    columns. *)
Lemma single_connection_gives_two_columns :
  exists temp_node t,
    temp_node_of [VStr "A with B"] = Return temp_node /\
    conn_node_list_of temp_node = Return [[Some "B"]] /\
    max_len [[Some "B"]] = 1 /\
    parse_node_and_connection [VStr "A with B"] = Return t /\
    connection_columns t = ["Connection1"; "Connection2"] /\
    length (connection_columns t) <> 1 /\
    rows t = [[VStr "A"; VStr "B"; VNone]].
Proof.
  do 2 eexists. split; [vm_compute; reflexivity|].
  split; [vm_compute; reflexivity|]. split; [reflexivity|].
  split; [vm_compute; reflexivity|]. split; [reflexivity|].
  split; [discriminate|reflexivity].
Qed.

Lemma connection_column_count_witness :
  parse_node_and_connection fan_out_node = Return fan_out_table /\
  exists temp_node conn_node_list,
    temp_node_of fan_out_node = Return temp_node /\
    conn_node_list_of temp_node = Return conn_node_list /\
    if forallb (fun c => Nat.eqb (length c) 1) conn_node_list
    then connection_columns fan_out_table = ["Connection1"; "Connection2"] /\
         Forall (fun row => cell_of fan_out_table row "Connection2" = Some VNone)
                (rows fan_out_table)
    else exists fanned,
        fan_out_loop (multi_indices conn_node_list) conn_node_list = Return fanned /\
        connection_columns fan_out_table = connection_names (max_len fanned) /\
        length (connection_columns fan_out_table) = max_len fanned.
Proof.
  assert (H : parse_node_and_connection fan_out_node = Return fan_out_table)
    by (vm_compute; reflexivity).
  split; [exact H|]. exact (connection_column_count _ _ H).
Defined.

Lemma connection_table_rectangular_witness :
  parse_node_and_connection fan_out_node = Return fan_out_table /\
  columns fan_out_table = "Node" :: connection_columns fan_out_table /\
  Forall (fun row => length row = S (length (connection_columns fan_out_table)))
         (rows fan_out_table) /\
  exists temp_node conn_node_list data,
    temp_node_of fan_out_node = Return temp_node /\
    conn_node_list_of temp_node = Return conn_node_list /\
    connection_rows conn_node_list = Return (data, connection_columns fan_out_table) /\
    Forall (fun c => length c = length (connection_columns fan_out_table)) data.
Proof.
  assert (H : parse_node_and_connection fan_out_node = Return fan_out_table)
    by (vm_compute; reflexivity).
  split; [exact H|]. exact (connection_table_rectangular _ _ H).
Defined.

(** C4, as stated, fails: in the table of a description that carries the
    scenario's connection list, [Connection1] is the first element alone,
    not the first two joined, and [Connection2] is the second element, not
    the third. *)
Lemma ashton_grouping_not_in_table :
  exists t row,
    parse_node_and_connection [VStr ashton_description] = Return t /\
    rows t = [row] /\
    cell_of t row "Connection1" = Some (VStr "Ashton Moss North Junction") /\
    cell_of t row "Connection1"
    <> Some (VStr "Ashton Moss North Junction and Guide Bridge Junction") /\
    cell_of t row "Connection2" = Some (VStr "Guide Bridge Junction") /\
    cell_of t row "Connection2" <> Some (VStr "Denton Junction").
Proof.
  do 2 eexists. split; [vm_compute; reflexivity|]. split; [reflexivity|].
  repeat split; try reflexivity; vm_compute; discriminate.
Qed.

(** C4, as the code has it -- the loop over the connections does group the
    first two of the three elements, but the fan-out that follows splits the
    group on [' and '] again: the row has the three connections in three
    columns. *)
Theorem ashton_connections_fan_out :
  connection_list (VStr ashton_connections)
  = Return [Some "Ashton Moss North Junction and Guide Bridge Junction";
            Some "Denton Junction"] /\
  connection_rows [[Some "Ashton Moss North Junction and Guide Bridge Junction";
                    Some "Denton Junction"]]
  = Return ([[Some "Ashton Moss North Junction"; Some "Guide Bridge Junction";
              Some "Denton Junction"]],
            ["Connection1"; "Connection2"; "Connection3"]) /\
  parse_node_and_connection [VStr ashton_description]
  = Return (Frame ["Node"; "Connection1"; "Connection2"; "Connection3"]
                  [object; object; object; object]
                  [[VStr "Stalybridge Junction"; VStr "Ashton Moss North Junction";
                    VStr "Guide Bridge Junction"; VStr "Denton Junction"]]).
Proof.
  repeat split; vm_compute; reflexivity.
Qed.

(** C8 -- the preprocessing rewrites its own output. ['A/B with X and Y'] is
    what it makes of ['A with X/B with Y'] (and ['A/B with X and X'] of
    ['A with X/B with X']); run on that output, the pattern of line 132
    matches again, [finditer] finds the single clause [' with X'], [zip]
    pairs it with the first node only, and the second node and the second
    connection are lost: the result is ['A with X']. The node parser
    therefore splits the normalized description into the node ['A'] with
    one connection, where the first run gave the node ['A/B'] with two. *)
Theorem rewritten_form_is_rewritten_again :
  preprocess_node "A with X/B with X" = "A/B with X and X" /\
  preprocess_node "A/B with X and X" = "A with X" /\
  preprocess_node "A with X/B with Y" = "A/B with X and Y" /\
  preprocess_node "A/B with X and Y" = "A with X" /\
  parse_node_and_connection [VStr "A with X/B with Y"]
  = Return (Frame ["Node"; "Connection1"; "Connection2"] [object; object; object]
                  [[VStr "A/B"; VStr "X"; VStr "Y"]]) /\
  parse_node_and_connection [VStr "A/B with X and Y"]
  = Return (Frame ["Node"; "Connection1"; "Connection2"] [object; object; object]
                  [[VStr "A"; VStr "X"; VNone]]).
Proof.
  repeat split; vm_compute; reflexivity.
Qed.

(** The preprocessing leaves a description unchanged when the pattern for
    two waypoints does not match it, and the pattern matches no description
    without a ['/'] and without an [' and ']. *)
Lemma preprocess_node_unchanged (node_x : string) :
  Re.re_match Pat.two_nodes node_x = None \/
  (PyStr.contains "/" node_x = false /\ PyStr.contains " and " node_x = false) ->
  preprocess_node node_x = node_x.
Proof.
  intros H. unfold preprocess_node.
  destruct (Re.re_match Pat.two_nodes node_x) as [m|] eqn:E; [|reflexivity].
  destruct H as [H | [H1 H2]]; [discriminate|].
  apply two_nodes_needs_separator in E as [E | E]; congruence.
Qed.

Lemma preprocess_node_unchanged_witness :
  (Re.re_match Pat.two_nodes "Trafford Park Junction with Glazebrook Junction (3.42)" = None \/
   (PyStr.contains "/" "Trafford Park Junction with Glazebrook Junction (3.42)" = false /\
    PyStr.contains " and " "Trafford Park Junction with Glazebrook Junction (3.42)" = false)) /\
  preprocess_node "Trafford Park Junction with Glazebrook Junction (3.42)"
  = "Trafford Park Junction with Glazebrook Junction (3.42)".
Proof.
  assert (H : Re.re_match Pat.two_nodes "Trafford Park Junction with Glazebrook Junction (3.42)" = None \/
   (PyStr.contains "/" "Trafford Park Junction with Glazebrook Junction (3.42)" = false /\
    PyStr.contains " and " "Trafford Park Junction with Glazebrook Junction (3.42)" = false))
    by (right; split; reflexivity).
  split; [exact H|]. exact (preprocess_node_unchanged _ H).
Defined.

(** ** The assembler *)

Lemma parse_mileage_nrows (fuel : nat) (dt : dtype) (cells : list value) (t : frame) :
  parse_mileage fuel (Series dt cells) = Return t -> nrows t = length cells.
Proof.
  destruct cells as [|c cells].
  - destruct fuel as [|fuel]; [discriminate|].
    rewrite parse_mileage_empty. intros H. now injection H as <-.
  - intros H. exfalso. exact (parse_mileage_cells_not_returned _ _ _ _ _ H).
Qed.

Lemma temp_node_of_nrows (node : list value) (temp_node : frame) :
  temp_node_of node = Return temp_node -> nrows temp_node = length node.
Proof.
  unfold temp_node_of. intros H.
  apply obind_Return in H as (info & Hinfo & H).
  apply DataFrame_shape in H as (_ & H & _).
  apply mapM_length in Hinfo. now rewrite H, length_map.
Qed.

(** Rows are never dropped: the parsed table has a row for each
    description. *)
Lemma parse_node_and_connection_nrows (node : list value) (t : frame) :
  parse_node_and_connection node = Return t -> nrows t = length node.
Proof.
  intros H.
  apply parse_node_and_connection_stages in H
    as (temp_node & conn_node_list & data & names & conn_node & node_col
        & H1 & _ & _ & _ & H5 & H6).
  apply join_shape in H6 as (_ & H6 & _).
  apply getitem_col_length in H5. apply temp_node_of_nrows in H1.
  rewrite H6. unfold nrows at 1. cbn [rows]. rewrite length_map. congruence.
Qed.

Lemma iloc_col_length (dat : frame) (i : nat) (dt : dtype) (cells : list value) :
  iloc_col dat i = Return (dt, cells) -> length cells = nrows dat.
Proof.
  unfold iloc_col. destruct (Nat.ltb _ _); [|discriminate].
  intros H. injection H as _ <-. apply length_column_at.
Qed.

(** The step that combines two parsed frames is a left join on the row
    index, and it raises nothing when the numbers of rows differ. The frame
    the mileage parser returns for the empty column and the frame the node
    parser returns for one description are joined to a frame without rows
    (the description is dropped); a frame of two mileages and that frame of
    one description are joined to a frame of two rows, the second completed
    by NaN. *)
Lemma join_does_not_compare_row_counts :
  exists parsed_mileage parsed_node truncated padded,
    parse_mileage 2 (Series object []) = Return parsed_mileage /\
    parse_node_and_connection [VStr "A with B"] = Return parsed_node /\
    nrows parsed_mileage <> nrows parsed_node /\
    join parsed_mileage parsed_node = Return truncated /\
    rows truncated = [] /\
    nrows two_mileages <> nrows parsed_node /\
    join two_mileages parsed_node = Return padded /\
    rows padded = [[VStr "0.00"; VStr ""; VStr "A"; VStr "B"; VNone];
                   [VStr "1.35"; VStr "Approximate"; NaN; NaN; NaN]].
Proof.
  do 4 eexists.
  split; [reflexivity|]. split; [vm_compute; reflexivity|].
  split; [vm_compute; discriminate|]. split; [vm_compute; reflexivity|].
  split; [reflexivity|]. split; [vm_compute; discriminate|].
  split; [vm_compute; reflexivity|]. reflexivity.
Qed.

(** The assembler has no check of the numbers of rows and no error of its
    own. When it returns, each of the two parsers
    has returned a frame with exactly one row for each row of the raw table,
    so the two numbers agree, and the table the join returns has that many
    rows. The join itself returns for any two frames whose column names do
    not overlap, whatever their numbers of rows, with the rows of the left
    one. *)
Lemma assembler_row_counts (fuel : nat) (dat t : frame) :
  parse_mileage_node_and_connection fuel dat = Return t ->
  (exists dt mileage dn node parsed_mileage parsed_node,
      iloc_col dat 0 = Return (dt, mileage) /\
      iloc_col dat 1 = Return (dn, node) /\
      parse_mileage fuel (Series dt mileage) = Return parsed_mileage /\
      parse_node_and_connection node = Return parsed_node /\
      join parsed_mileage parsed_node = Return t /\
      nrows parsed_mileage = nrows dat /\
      nrows parsed_node = nrows dat /\
      nrows t = nrows dat) /\
  (forall left right,
      overlap (columns left) (columns right) = false ->
      exists joined, join left right = Return joined /\ nrows joined = nrows left).
Proof.
  intros H. split; [|exact join_returns].
  unfold parse_mileage_node_and_connection in H.
  apply obind_Return in H as ([dt mileage] & H0 & H).
  apply obind_Return in H as ([dn node] & H1 & H).
  apply obind_Return in H as (parsed_mileage & Hm & H).
  apply obind_Return in H as (parsed_node & Hn & H).
  cbn [fst snd] in *.
  exists dt, mileage, dn, node, parsed_mileage, parsed_node.
  pose proof (parse_mileage_nrows _ _ _ _ Hm) as Em.
  pose proof (parse_node_and_connection_nrows _ _ Hn) as En.
  pose proof (iloc_col_length _ _ _ _ H0) as E0.
  pose proof (iloc_col_length _ _ _ _ H1) as E1.
  pose proof (join_shape _ _ _ H) as (_ & Ej & _).
  repeat split; congruence.
Qed.

Lemma assembler_row_counts_witness :
  parse_mileage_node_and_connection 2 empty_raw_table = Return empty_parsed_table /\
  (exists dt mileage dn node parsed_mileage parsed_node,
      iloc_col empty_raw_table 0 = Return (dt, mileage) /\
      iloc_col empty_raw_table 1 = Return (dn, node) /\
      parse_mileage 2 (Series dt mileage) = Return parsed_mileage /\
      parse_node_and_connection node = Return parsed_node /\
      join parsed_mileage parsed_node = Return empty_parsed_table /\
      nrows parsed_mileage = nrows empty_raw_table /\
      nrows parsed_node = nrows empty_raw_table /\
      nrows empty_parsed_table = nrows empty_raw_table) /\
  (forall left right,
      overlap (columns left) (columns right) = false ->
      exists joined, join left right = Return joined /\ nrows joined = nrows left).
Proof.
  assert (H : parse_mileage_node_and_connection 2 empty_raw_table
              = Return empty_parsed_table) by (vm_compute; reflexivity).
  split; [exact H|]. exact (assembler_row_counts _ _ _ H).
Defined.

(** ** Mileage files *)

Lemma heap_update_same (h : heap) (r : ref) (d : gmap string pyobj) :
  heap_update h r d r = d.
Proof. unfold heap_update. now rewrite Nat.eqb_refl. Qed.

Lemma heap_update_other (h : heap) (r r' : ref) (d : gmap string pyobj) :
  r' <> r -> heap_update h r d r' = h r'.
Proof.
  intros H. unfold heap_update. apply Nat.eqb_neq in H. now rewrite H.
Qed.

(** The frame of [parse_mileage_file]. When the call returns, it
    returns the reference it was given; the dict behind that reference has
    changed at the key [elr] only, where the raw table (or, for a dict of
    more than one section, each table of the dict) has been replaced by the
    table parsed from it; every other entry of the dict, and every other
    dict of the heap, is as it was. *)
Lemma parse_mileage_file_frame
        (fuel : nat) (h h' : heap) (mileage_file r : ref) (elr : string) :
  parse_mileage_file fuel h mileage_file elr = Return (r, h') ->
  r = mileage_file /\
  (forall k, k <> elr -> h' mileage_file !! k = h mileage_file !! k) /\
  (forall r', r' <> mileage_file -> h' r' = h r') /\
  match h mileage_file !! elr with
  | Some (OFrame dat) =>
      exists parsed, parse_mileage_node_and_connection fuel dat = Return parsed /\
                     h' mileage_file !! elr = Some (OFrame parsed)
  | Some (ODict d) =>
      exists parsed, parse_sections fuel d = Return parsed /\
                     map fst parsed = map fst d /\
                     h' mileage_file !! elr = Some (ODict parsed)
  | _ => False
  end.
Proof.
  unfold parse_mileage_file. intros H.
  destruct (h mileage_file !! elr) as [dat|] eqn:Hdat; [|discriminate].
  apply obind_Return in H as (dat' & Hparse & H).
  injection H as <- <-.
  split; [reflexivity|]. split.
  { intros k Hk. rewrite heap_update_same. now apply lookup_insert_ne. }
  split.
  { intros r' Hr'. now apply heap_update_other. }
  rewrite heap_update_same, lookup_insert_eq.
  destruct dat as [t | d | cells | s | ]; try discriminate.
  - apply obind_Return in Hparse as (t' & Ht' & Hparse). injection Hparse as <-.
    eauto.
  - destruct (Nat.ltb 1 (length d)); [|discriminate].
    apply obind_Return in Hparse as (d' & Hd' & Hparse). injection Hparse as <-.
    exists d'. split; [exact Hd'|]. split; [|reflexivity].
    clear -Hd'. revert d' Hd'. unfold parse_sections.
    induction d as [|[label dat] d IH]; intros d' Hd'.
    + simpl in Hd'. now injection Hd' as <-.
    + apply mapM_Return_cons in Hd' as ([label' parsed] & ps & Hp & Hps & ->).
      apply obind_Return in Hp as (parsed0 & _ & Hp). injection Hp as <- <-.
      simpl. f_equal. now apply IH.
Qed.

Lemma parse_mileage_file_frame_witness :
  parse_mileage_file 2 raw_heap 0 "AAA" = Return (0, parsed_heap) /\
  0 = 0 /\
  (forall k, k <> "AAA" -> parsed_heap 0 !! k = raw_heap 0 !! k) /\
  (forall r', r' <> 0 -> parsed_heap r' = raw_heap r') /\
  match raw_heap 0 !! "AAA" with
  | Some (OFrame dat) =>
      exists parsed, parse_mileage_node_and_connection 2 dat = Return parsed /\
                     parsed_heap 0 !! "AAA" = Some (OFrame parsed)
  | Some (ODict d) =>
      exists parsed, parse_sections 2 d = Return parsed /\
                     map fst parsed = map fst d /\
                     parsed_heap 0 !! "AAA" = Some (ODict parsed)
  | _ => False
  end.
Proof.
  assert (H : parse_mileage_file 2 raw_heap 0 "AAA" = Return (0, parsed_heap))
    by reflexivity.
  split; [exact H|]. exact (parse_mileage_file_frame _ _ _ _ _ _ H).
Defined.

(** ** The resolver *)

Lemma bind_Return {A B} (m : M A) (f : A -> M B) (s s' : rstate) (b : B) :
  bind m f s = (Return b, s') ->
  exists a s1, m s = (Return a, s1) /\ f a s1 = (Return b, s').
Proof.
  unfold bind. destruct (m s) as [[a|e|] s1]; intros H; try discriminate.
  eauto.
Qed.

Lemma is_None_false (v : value) : is_None v = false -> v <> VNone.
Proof. destruct v; simpl; congruence. Qed.

Lemma is_None_true (v : value) : is_None v = true -> v = VNone.
Proof. destruct v; simpl; congruence. Qed.

(** The guard of lines 376 and 377: the pair the resolver returns has either
    no [None] in it or two. Whatever the scans have left in the two
    variables, the function ends by replacing both by [None] as soon as one
    of them is [None]. The guard tests for Python's [None] only: a NaN is
    not [None] and passes it. *)
Lemma resolver_both_or_neither
        (get_mileage_file : string -> bool -> outcome (option (gmap string pyobj)))
        (miles_chains_to_mileage : string -> outcome value)
        (start_elr end_elr : string) (update : bool)
        (start_mileage end_mileage : value) (asked : list string) :
  resolve get_mileage_file miles_chains_to_mileage start_elr end_elr update
  = (Return (start_mileage, end_mileage), asked) ->
  (start_mileage = VNone /\ end_mileage = VNone) \/
  (start_mileage <> VNone /\ end_mileage <> VNone).
Proof.
  unfold resolve.
  destruct (get_conn_end_start_mileages _ _ _ _ _ _) as [r s] eqn:E.
  intros H. injection H as -> _.
  unfold get_conn_end_start_mileages in E.
  apply bind_Return in E as (? & ? & _ & E).
  apply bind_Return in E as (? & ? & _ & E).
  apply bind_Return in E as (? & ? & _ & E).
  apply bind_Return in E as (? & ? & _ & E).
  apply bind_Return in E as (? & ? & _ & E).
  apply bind_Return in E as (? & s1 & _ & E).
  destruct (is_None (start_conn_mileage s1)) eqn:Hs; cbn [orb] in E.
  - injection E as <- <- _. now left.
  - destruct (is_None (end_conn_mileage s1)) eqn:He.
    + injection E as <- <- _. now left.
    + injection E as <- <- _. right.
      split; now apply is_None_false.
Qed.

Lemma resolver_both_or_neither_witness :
  resolve (link_store "BBB (3.42)") keep_text "AAA" "BBB" false
  = (Return (VStr "12.34", VStr "3.42"), ["AAA"]) /\
  ((VStr "12.34" = VNone /\ VStr "3.42" = VNone) \/
   (VStr "12.34" <> VNone /\ VStr "3.42" <> VNone)).
Proof.
  assert (H : resolve (link_store "BBB (3.42)") keep_text "AAA" "BBB" false
              = (Return (VStr "12.34", VStr "3.42"), ["AAA"]))
    by (vm_compute; reflexivity).
  split; [exact H|]. exact (resolver_both_or_neither _ _ _ _ _ _ _ _ H).
Defined.

(** ** What the resolver asks the store for *)

Lemma keeps_ret {A} (a : A) : keeps_loaded (ret a).
Proof. intros s. reflexivity. Qed.

Lemma keeps_lift {A} (o : outcome A) : keeps_loaded (lift o).
Proof. intros s. reflexivity. Qed.

Lemma keeps_set_start (v : value) : keeps_loaded (set_start v).
Proof. intros s. reflexivity. Qed.

Lemma keeps_set_end (v : value) : keeps_loaded (set_end v).
Proof. intros s. reflexivity. Qed.

Lemma keeps_both_found : keeps_loaded both_found.
Proof. intros s. reflexivity. Qed.

Lemma keeps_bind {A B} (m : M A) (f : A -> M B) :
  keeps_loaded m -> (forall a, keeps_loaded (f a)) -> keeps_loaded (bind m f).
Proof.
  intros Hm Hf s. unfold bind. specialize (Hm s).
  destruct (m s) as [[a|e|] s1]; simpl in *; try exact Hm.
  rewrite <- Hm. apply Hf.
Qed.

Lemma keeps_break_if_both_found : keeps_loaded break_if_both_found.
Proof.
  apply keeps_bind; [apply keeps_both_found | intros b; apply keeps_ret].
Qed.

Lemma keeps_for {X} (xs : list X) (body : X -> M ctrl) :
  (forall x, keeps_loaded (body x)) -> keeps_loaded (for_ xs body).
Proof.
  intros Hb. induction xs as [|x xs IH]; simpl; [apply keeps_ret|].
  apply keeps_bind; [apply Hb|]. intros [|]; [exact IH | apply keeps_ret].
Qed.

Ltac keeps :=
  repeat first
    [ apply keeps_ret | apply keeps_lift | apply keeps_set_start
    | apply keeps_set_end | apply keeps_both_found
    | apply keeps_break_if_both_found
    | apply keeps_bind; [|intros ?]
    | apply keeps_for; intros ?
    | match goal with
      | |- keeps_loaded (if ?b then _ else _) => destruct b
      end ].

Section Loads.

Variable get_mileage_file : string -> bool -> outcome (option (gmap string pyobj)).
Variable miles_chains_to_mileage : string -> outcome value.

Lemma load_then {A} (elr : string) (update : bool) (f : pyobj -> M A) (s : rstate) :
  (forall o, keeps_loaded (f o)) ->
  loaded (snd (bind (load get_mileage_file elr update) f s)) = loaded s ++ [elr].
Proof.
  intros Hf. unfold bind, load.
  destruct (get_mileage_file elr update) as [[d|]|e|]; try reflexivity.
  destruct (d !! elr) as [o|]; [|reflexivity].
  rewrite Hf. reflexivity.
Qed.

(** The scan of a link line's table asks the store for that line, once, and
    for nothing else. *)
Lemma scan_link_table_loaded (start_elr end_elr link_elr : string) (update : bool)
      (s : rstate) :
  loaded (snd (scan_link_table get_mileage_file miles_chains_to_mileage
                 start_elr end_elr link_elr update s))
  = loaded s ++ [link_elr].
Proof.
  unfold scan_link_table. apply load_then. intros o. keeps.
Qed.

Lemma try_pass_state (body : M unit) (s : rstate) :
  snd (try_pass body s) = snd (body s).
Proof.
  unfold try_pass. destruct (body s) as [[[]|[]|] s']; reflexivity.
Qed.

(** The link fallback opens a table exactly when the pattern of the code
    matches the candidate, and then the table of the candidate. *)
Lemma try_link_loaded (start_elr end_elr : string) (update : bool) (text : string)
      (s : rstate) :
  loaded (snd (try_link get_mileage_file miles_chains_to_mileage
                 start_elr end_elr update (VStr text) s))
  = loaded s ++
    (if Re.is_match (Re.re_match Pat.link_elr_shape (link_candidate text))
     then [link_candidate text] else []).
Proof.
  unfold try_link.
  destruct (Re.is_match _).
  - rewrite try_pass_state. apply scan_link_table_loaded.
  - simpl. now rewrite app_nil_r.
Qed.

(** C2 -- the pattern of the link fallback is ['[A-Z]{3}(0-9)?$'], with a
    group where a class [[0-9]] is meant. For the candidate ['MVL'] the
    table of the link line is asked for; for the candidate ['MVL2'], three
    letters followed by a digit, nothing is asked for; for the candidate
    ['MVL0-9'], which is no line reference, a table is asked for. With a
    store that holds the same link table under the name of the link, the
    query from [AAA] to [BBB] is resolved through the link [MVL], and is
    answered by [(None, None)], no table opened, through the link [MVL2]. *)
Theorem link_table_skipped_for_digit_suffix
        (start_elr end_elr : string) (update : bool) (s : rstate) :
  loaded (snd (try_link get_mileage_file miles_chains_to_mileage
                 start_elr end_elr update (VStr "MVL") s))
  = loaded s ++ ["MVL"] /\
  loaded (snd (try_link get_mileage_file miles_chains_to_mileage
                 start_elr end_elr update (VStr "MVL2") s))
  = loaded s /\
  loaded (snd (try_link get_mileage_file miles_chains_to_mileage
                 start_elr end_elr update (VStr "MVL0-9") s))
  = loaded s ++ ["MVL0-9"] /\
  resolve (link_store "MVL") miles_chains_to_mileage "AAA" "BBB" update
  = (Return (VStr "1.00", VStr "2.00"), ["AAA"; "MVL"]) /\
  resolve (link_store "MVL2") miles_chains_to_mileage "AAA" "BBB" update
  = (Return (VNone, VNone), ["AAA"]).
Proof.
  rewrite !try_link_loaded.
  split; [reflexivity|]. split; [apply app_nil_r|]. split; [reflexivity|].
  split; vm_compute; reflexivity.
Qed.

End Loads.

(** ** Further properties *)

(** Every call of [parse_mileage] ends, on a column and on a cell alike, once
    two levels of recursion are allowed: the call on a column calls the
    function on cells, and a call on a cell makes no call. *)
Theorem parse_mileage_always_halts (fuel : nat) (mileage : pyarg) :
  halted (parse_mileage (S (S fuel)) mileage) = true.
Proof.
  pose proof (parse_mileage_halts fuel mileage) as H.
  destruct (parse_mileage (S (S fuel)) mileage); [reflexivity | reflexivity | congruence].
Qed.

(** The node parser never drops a row: a table it returns has one row for
    each description of the column. *)
Theorem node_rows_never_dropped (node : list value) (t : frame) :
  parse_node_and_connection node = Return t -> nrows t = length node.
Proof. apply parse_node_and_connection_nrows. Qed.

Lemma node_rows_never_dropped_witness :
  parse_node_and_connection fan_out_node = Return fan_out_table /\
  nrows fan_out_table = length fan_out_node.
Proof.
  assert (H : parse_node_and_connection fan_out_node = Return fan_out_table)
    by (vm_compute; reflexivity).
  split; [exact H|]. exact (node_rows_never_dropped _ _ H).
Defined.

(** The link fallback asks the store for a table exactly when the pattern
    ['[A-Z]{3}(0-9)?$'] matches the candidate of the cell, and then for the
    table of that candidate only. *)
Theorem link_lookup_follows_pattern
        (get_mileage_file : string -> bool -> outcome (option (gmap string pyobj)))
        (miles_chains_to_mileage : string -> outcome value)
        (start_elr end_elr : string) (update : bool) (text : string) (s : rstate) :
  loaded (snd (try_link get_mileage_file miles_chains_to_mileage
                 start_elr end_elr update (VStr text) s))
  = loaded s ++
    (if Re.is_match (Re.re_match Pat.link_elr_shape (link_candidate text))
     then [link_candidate text] else []).
Proof. apply try_link_loaded. Qed.

(** ** Runs on concrete inputs *)

Example split_on_and :
  PyStr.split "A and B and C" " and " = ["A"; "B"; "C"].
Proof. reflexivity. Qed.

Example replace_curve :
  PyStr.replace "A with curve to B" " with curve to" " with" = "A with B".
Proof. reflexivity. Qed.

Example lstrip_later :
  PyStr.lstrip "later ABC" "later " = "ABC".
Proof. reflexivity. Qed.

Example slice_between_parentheses :
  PyStr.slice "(8.67)" (PyStr.find "(8.67)" "(" + 1) (PyStr.find "(8.67)" ")") = "8.67".
Proof. reflexivity. Qed.

Example finditer_with_clauses :
  Re.finditer_groups Pat.with_clause "A with ABC (1.23)/B with DEF (4.56)"
  = [" with ABC (1.23)"; " with DEF (4.56)"].
Proof. reflexivity. Qed.

Example search_stated_mileage :
  option_map Re.group (Re.re_search Pat.mileage_after_elr "Glazebrook Junction (3.42)")
  = Some "3.42".
Proof. reflexivity. Qed.

Example match_elr_before_mileage :
  option_map Re.group (Re.re_match Pat.elr_before_mileage "MVL2 (3.42)") = Some "MVL2".
Proof. reflexivity. Qed.

Example link_shape_runs :
  map (fun s => Re.is_match (Re.re_match Pat.link_elr_shape s))
      ["MVL"; "MVL2"; "MVL0-9"; "mvl"; "MVLX"; "MV"]
  = [true; false; true; false; false; false].
Proof. reflexivity. Qed.

Example two_nodes_runs :
  map (fun s => Re.is_match (Re.re_match Pat.two_nodes s))
      ["A/B with X and X"; "A with X"; "A with ABC (1.23)/B with DEF (4.56)";
       "X with A and B and C"]
  = [true; false; true; false].
Proof. reflexivity. Qed.

Example note_cell_runs :
  map note_cell [VStr "~3.05"; VStr "(8.67)"; VNone; VStr "3.05"; NaN; VStr " 3.05 "]
  = [Return (VStr "3.05", "Approximate"); Return (VStr "8.67", "Reference");
     Return (VNone, "Unknown"); Return (VStr "3.05", "");
     Return (NaN, "Unknown"); Return (VStr "3.05", "")].
Proof. reflexivity. Qed.

Example parse_mileage_float_column :
  parse_mileage 2 (Series float64 [VFloat 0.5%float]) = Raise AttributeError /\
  parse_mileage 2 (Series float64 [VNpFloat 0.5%float]) = Raise TypeError /\
  parse_mileage 2 (Series float64 [])
  = Return (Frame ["Mileage"; "Mileage_Note"] [object; object] []).
Proof. repeat split; reflexivity. Qed.

Example preprocess_node_runs :
  map preprocess_node
      ["A with ABC (1.23)/B with DEF (4.56)"; "A/B with X"; "A with X";
       "Node1/Node2 with ABC (1.23) and DEF (4.56)"]
  = ["A/B with ABC (1.23) and DEF (4.56)"; "A with X"; "A with X";
     "Node1 with ABC (1.23)"].
Proof. vm_compute. reflexivity. Qed.

Example parse_node_one_connection_each :
  parse_node_and_connection [VStr "A with B"; VStr "C"]
  = Return (Frame ["Node"; "Connection1"; "Connection2"] [object; object; object]
              [[VStr "A"; VStr "B"; VNone]; [VStr "C"; VNone; VNone]]).
Proof. vm_compute. reflexivity. Qed.

Example parse_node_without_any_connection :
  parse_node_and_connection [VStr "A"; VStr "C"] = Raise FrameShapeError.
Proof. vm_compute. reflexivity. Qed.

Example parse_node_later_and_commas :
  parse_node_and_connection [VStr "P with A and B"; VStr "R with later D, E and F"]
  = Return (Frame ["Node"; "Connection1"; "Connection2"; "Connection3"]
              [object; object; object; object]
              [[VStr "P"; VStr "A"; VStr "B"; VNone];
               [VStr "R"; VStr "D"; VStr "E"; VStr "F"]]).
Proof. vm_compute. reflexivity. Qed.

(** [list.index] finds the first of two equal rows twice: the second one is
    not fanned out. *)
Example parse_node_equal_rows :
  parse_node_and_connection [VStr "P with A and B and later C and D";
                             VStr "P with A and B and later C and D"]
  = Return (Frame ["Node"; "Connection1"; "Connection2"; "Connection3"; "Connection4"]
              [object; object; object; object; object]
              [[VStr "P"; VStr "A"; VStr "B"; VStr "C"; VStr "D"];
               [VStr "P"; VStr "A and B"; VStr "later C and D"; VNone; VNone]]).
Proof. vm_compute. reflexivity. Qed.

Example resolve_direct_hit :
  resolve (link_store "BBB (3.42)") keep_text "AAA" "BBB" false
  = (Return (VStr "12.34", VStr "3.42"), ["AAA"]).
Proof. vm_compute. reflexivity. Qed.

Example resolve_through_link :
  resolve (link_store "MVL") keep_text "AAA" "BBB" false
  = (Return (VStr "1.00", VStr "2.00"), ["AAA"; "MVL"]).
Proof. vm_compute. reflexivity. Qed.

(** A link line whose file cannot be loaded is passed over. *)
Example resolve_no_match :
  resolve (link_store "MVL") keep_text "AAA" "CCC" false
  = (Return (VNone, VNone), ["AAA"; "MVL"]) /\
  resolve (link_store "XYZ (1.10)") keep_text "AAA" "CCC" false
  = (Return (VNone, VNone), ["AAA"; "XYZ"]).
Proof. split; vm_compute; reflexivity. Qed.

(** A start line whose file cannot be loaded fails the query. *)
Example resolve_unknown_start :
  resolve (link_store "MVL") keep_text "ZZZ" "BBB" false = (Raise TypeError, ["ZZZ"]).
Proof. vm_compute. reflexivity. Qed.

(** ** What the defect of [parse_mileage] means for its callers *)

Lemma parse_mileage_returned_empty (fuel : nat) (dt : dtype) (cells : list value)
      (t : frame) :
  parse_mileage fuel (Series dt cells) = Return t ->
  cells = [] /\ t = Frame ["Mileage"; "Mileage_Note"] [object; object] [].
Proof.
  destruct cells as [|c cells].
  - destruct fuel as [|fuel]; [discriminate|].
    rewrite parse_mileage_empty. intros H. now injection H as <-.
  - intros H. exfalso. exact (parse_mileage_cells_not_returned _ _ _ _ _ H).
Qed.

Lemma column_at_nil (t : frame) (i : nat) : column_at t i = [] -> rows t = [].
Proof. unfold column_at. destruct (rows t); [reflexivity | discriminate]. Qed.

Lemma assembler_on_no_rows (fuel : nat) (dat : frame) :
  2 <= length (columns dat) -> rows dat = [] ->
  parse_mileage_node_and_connection (S fuel) dat = Return empty_parsed_table.
Proof.
  intros Hc Hr. unfold parse_mileage_node_and_connection, iloc_col, column_at.
  rewrite Hr.
  destruct (Nat.ltb_spec 0 (length (columns dat))) as [_|]; [|lia].
  destruct (Nat.ltb_spec 1 (length (columns dat))) as [_|]; [|lia].
  cbn [obind fst snd map]. rewrite parse_mileage_empty. reflexivity.
Qed.

Lemma assembler_returned (fuel : nat) (dat t : frame) :
  parse_mileage_node_and_connection fuel dat = Return t ->
  2 <= length (columns dat) /\ rows dat = [] /\ t = empty_parsed_table.
Proof.
  intros H.
  assert (Hrows : rows dat = [] /\ 2 <= length (columns dat) /\ fuel <> 0).
  { unfold parse_mileage_node_and_connection in H.
    apply obind_Return in H as ([dt mileage] & H0 & H).
    apply obind_Return in H as ([dn node] & H1 & H).
    apply obind_Return in H as (parsed_mileage & Hm & _).
    cbn [fst snd] in Hm.
    assert (fuel <> 0) by (intros ->; discriminate).
    apply parse_mileage_returned_empty in Hm as [-> _].
    unfold iloc_col in H0, H1.
    destruct (Nat.ltb 0 _); [|discriminate]. injection H0 as _ H0.
    destruct (Nat.ltb_spec 1 (length (columns dat))); [|discriminate].
    split; [now apply column_at_nil in H0 | split; [lia | assumption]]. }
  destruct Hrows as (Hr & Hc & Hf).
  destruct fuel as [|fuel]; [congruence|].
  rewrite (assembler_on_no_rows fuel dat Hc Hr) in H. injection H as <-. auto.
Qed.

(** The assembler returns exactly for the raw tables that have two columns
    at least and no row, and what it returns then is the table of the five
    columns [Mileage], [Mileage_Note], [Node], [Connection1], [Connection2]
    without rows: a raw table with a row is never assembled. *)
Theorem assembler_returns_for_no_rows_only (fuel : nat) (dat t : frame) :
  parse_mileage_node_and_connection (S fuel) dat = Return t <->
  (2 <= length (columns dat) /\ rows dat = [] /\ t = empty_parsed_table).
Proof.
  split.
  - apply assembler_returned.
  - intros (Hc & Hr & ->). now apply assembler_on_no_rows.
Qed.

Lemma parse_sections_returned (fuel : nat) (d parsed : list (string * frame)) :
  parse_sections fuel d = Return parsed ->
  Forall (fun kv => rows (snd kv) = []) d /\
  parsed = map (fun kv => (fst kv, empty_parsed_table)) d.
Proof.
  unfold parse_sections. revert parsed.
  induction d as [|[label dat] d IH]; intros parsed H.
  - simpl in H. injection H as <-. split; [constructor | reflexivity].
  - apply mapM_Return_cons in H as ([label' t] & ps & Hp & Hps & ->).
    apply obind_Return in Hp as (t0 & Ht0 & Hp). injection Hp as <- <-.
    apply assembler_returned in Ht0 as (_ & Hr & ->).
    apply IH in Hps as [Hall ->].
    split; [constructor; [exact Hr | exact Hall] | reflexivity].
Qed.

(** [parse_mileage_file] returns only when the table at [elr] has no row
    (or, for a dict of sections, when there are two sections at least and
    none has a row); the entry it leaves at [elr] is then the table of the
    five columns without rows, for each section. A mileage file with a row is
    never parsed: the call raises. *)
Theorem parse_mileage_file_returns_for_no_rows_only
        (fuel : nat) (h h' : heap) (mileage_file r : ref) (elr : string) :
  parse_mileage_file fuel h mileage_file elr = Return (r, h') ->
  match h mileage_file !! elr with
  | Some (OFrame dat) =>
      rows dat = [] /\ h' mileage_file !! elr = Some (OFrame empty_parsed_table)
  | Some (ODict d) =>
      1 < length d /\ Forall (fun kv => rows (snd kv) = []) d /\
      h' mileage_file !! elr
      = Some (ODict (map (fun kv => (fst kv, empty_parsed_table)) d))
  | _ => False
  end.
Proof.
  unfold parse_mileage_file. intros H.
  destruct (h mileage_file !! elr) as [dat|] eqn:Hdat; [|discriminate].
  apply obind_Return in H as (dat' & Hparse & H).
  injection H as <- <-.
  rewrite heap_update_same, lookup_insert_eq.
  destruct dat as [t | d | cells | s | ]; try discriminate.
  - apply obind_Return in Hparse as (t' & Ht' & Hparse). injection Hparse as <-.
    apply assembler_returned in Ht' as (_ & Hr & ->). auto.
  - destruct (Nat.ltb_spec 1 (length d)); [|discriminate].
    apply obind_Return in Hparse as (d' & Hd' & Hparse). injection Hparse as <-.
    apply parse_sections_returned in Hd' as [Hall ->]. auto.
Qed.

Lemma parse_mileage_file_returns_for_no_rows_only_witness :
  parse_mileage_file 2 raw_heap 0 "AAA" = Return (0, parsed_heap) /\
  match raw_heap 0 !! "AAA" with
  | Some (OFrame dat) =>
      rows dat = [] /\ parsed_heap 0 !! "AAA" = Some (OFrame empty_parsed_table)
  | Some (ODict d) =>
      1 < length d /\ Forall (fun kv => rows (snd kv) = []) d /\
      parsed_heap 0 !! "AAA"
      = Some (ODict (map (fun kv => (fst kv, empty_parsed_table)) d))
  | _ => False
  end.
Proof.
  assert (H : parse_mileage_file 2 raw_heap 0 "AAA" = Return (0, parsed_heap))
    by reflexivity.
  split; [exact H|].
  exact (parse_mileage_file_returns_for_no_rows_only _ _ _ _ _ _ H).
Defined.

(** ** When the node parser returns *)

Lemma split_from_nonempty (sep : string) (s : string) (skip : nat) :
  PyStr.split_from sep skip s <> [].
Proof.
  revert skip. induction s as [|c s IH]; intros skip.
  - simpl. congruence.
  - cbn [PyStr.split_from]. destruct skip as [|k]; [|apply IH].
    destruct (String.prefix sep (String c s)); [congruence|].
    destruct (PyStr.split_from sep 0 s); congruence.
Qed.

Lemma split_nonempty (s sep : string) : PyStr.split s sep <> [].
Proof. apply split_from_nonempty. Qed.

Lemma mapM_total {A B} (f : A -> outcome B) (Q : B -> Prop) (xs : list A) :
  Forall (fun x => exists y, f x = Return y /\ Q y) xs ->
  exists ys, mapM f xs = Return ys /\ Forall Q ys.
Proof.
  induction xs as [|x xs IH]; intros H.
  - exists []. split; [reflexivity | constructor].
  - apply Forall_cons in H as [(y & Hy & HQ) H].
    destruct (IH H) as (ys & Hys & HQs).
    exists (y :: ys). simpl. rewrite Hy, Hys. split; [reflexivity|].
    now constructor.
Qed.

Lemma mapM_preprocess_cell (node : list string) :
  mapM preprocess_cell (map VStr node) = Return (map preprocess_node node).
Proof.
  induction node as [|n node IH]; simpl; [reflexivity|]. now rewrite IH.
Qed.

Lemma temp_node_of_strings (node : list string) :
  temp_node_of (map VStr node)
  = DataFrame (map (fun n => map VStr (pieces n)) node) ["Node"; "Connection"].
Proof.
  unfold temp_node_of. rewrite mapM_preprocess_cell. cbn [obind].
  now rewrite map_map.
Qed.

Lemma max_len_map_VStr (node : list string) :
  max_len (map (fun n => map VStr (pieces n)) node) = max_len (map pieces node).
Proof.
  unfold max_len. rewrite !map_map. f_equal. apply map_ext.
  intros n. apply length_map.
Qed.

Lemma nth_pad_to_VStr (w i : nat) (p : list string) :
  str_or_None (nth i (pad_to w VNone (map VStr p)) VNone).
Proof.
  unfold pad_to.
  destruct (Nat.lt_ge_cases i (length (map VStr p))) as [Hi|Hi].
  - rewrite app_nth1 by exact Hi. rewrite length_map in Hi.
    rewrite (nth_indep _ VNone (VStr "")) by (now rewrite length_map).
    rewrite map_nth. exact I.
  - rewrite app_nth2 by exact Hi.
    destruct (Nat.lt_ge_cases (i - length (map VStr p))
                (length (repeat VNone (w - length (map VStr p))))) as [Hj|Hj].
    + rewrite nth_repeat_lt; [exact I|]. now rewrite repeat_length in Hj.
    + rewrite nth_overflow by exact Hj. exact I.
Qed.

Lemma connection_list_total (v : value) :
  str_or_None v ->
  exists c, connection_list v = Return c /\ connections_or_none c.
Proof.
  destruct v as [| | | s | ]; simpl; intros H; try contradiction.
  - exists [None]. split; [reflexivity | now left].
  - destruct (Nat.ltb 2 (length (PyStr.split s " and "))).
    + eexists. split; [reflexivity|]. right. split; [discriminate|].
      repeat constructor; discriminate.
    + eexists. split; [reflexivity|]. right. split.
      * pose proof (split_nonempty s " and ") as Hne.
        destruct (PyStr.split s " and "); [congruence | discriminate].
      * apply List.Forall_forall. intros x Hx.
        apply in_map_iff in Hx as (y & <- & _). discriminate.
Qed.

Lemma all_strings (row : list (option string)) :
  Forall (fun x => x <> None) row -> exists ss, row = map Some ss.
Proof.
  induction 1 as [|x row Hx _ [ss ->]].
  - now exists [].
  - destruct x as [s|]; [|congruence]. now exists (s :: ss).
Qed.

Lemma flat_split_strings (f : string -> list string) (ss : list string) :
  flat_split f (map Some ss) = Return (map Some (concat (map f ss))).
Proof.
  unfold flat_split.
  assert (H : mapM (fun x : option string =>
                      match x with
                      | Some s => Return (map Some (f s))
                      | None => Raise AttributeError
                      end) (map Some ss)
              = Return (map (fun s => map Some (f s)) ss)).
  { induction ss as [|s ss IH]; simpl; [reflexivity|]. now rewrite IH. }
  rewrite H. clear H. cbn [obind]. f_equal.
  induction ss as [|s ss IH]; simpl; [reflexivity|].
  rewrite map_app. now f_equal.
Qed.

Lemma length_concat_nonempty {X} (f : string -> list X) (ss : list string) :
  (forall s, f s <> []) -> length ss <= length (concat (map f ss)).
Proof.
  intros Hf. induction ss as [|s ss IH]; simpl; [lia|].
  rewrite length_app. specialize (Hf s). destruct (f s); [congruence|]. simpl. lia.
Qed.

(** The fan-out of a row of strings is a row of strings, and no shorter. *)
Lemma fan_out_strings (ss : list string) :
  exists ss', fan_out (map Some ss) = Return (map Some ss') /\ length ss <= length ss'.
Proof.
  unfold fan_out. rewrite flat_split_strings. cbn [obind].
  rewrite flat_split_strings. eexists. split; [reflexivity|].
  etransitivity; [|apply length_concat_nonempty; intros s; apply split_nonempty].
  apply length_concat_nonempty. intros s. apply split_nonempty.
Qed.

Lemma list_index_lookup (c : list (option string)) (l : list (list (option string)))
      (i : nat) :
  list_index c l = Some i -> l !! i = Some c.
Proof.
  revert i. induction l as [|c' l IH]; intros i H; simpl in H; [discriminate|].
  unfold conn_eqb in H. destruct (bool_decide_reflect (c' = c)) as [->|_].
  - now injection H as <-.
  - destruct (list_index c l) as [j|]; [|discriminate].
    injection H as <-. simpl. now apply IH.
Qed.

Lemma multi_indices_rows (l : list (list (option string))) (i : nat) :
  Forall connections_or_none l -> In i (multi_indices l) ->
  exists ss, l !! i = Some (map Some ss) /\ 2 <= length ss.
Proof.
  intros Hl Hi. unfold multi_indices in Hi.
  apply in_flat_map in Hi as (c & Hc & Hi).
  destruct (Nat.ltb_spec 1 (length c)) as [Hlen|]; [|contradiction].
  destruct (list_index c l) as [j|] eqn:Hj; [|contradiction].
  destruct Hi as [<-|[]]. apply list_index_lookup in Hj.
  rewrite List.Forall_forall in Hl. destruct (Hl c Hc) as [->|[_ Hs]].
  - simpl in Hlen. lia.
  - apply all_strings in Hs as [ss ->]. rewrite length_map in Hlen. eauto.
Qed.

(** The loop over the indices never fails on rows of strings, and a row of
    two elements or more stays one. *)
Lemma fan_out_loop_total (idxs : list nat) :
  forall l : list (list (option string)),
    (forall i, In i idxs -> exists ss, l !! i = Some (map Some ss) /\ 2 <= length ss) ->
    exists fanned,
      fan_out_loop idxs l = Return fanned /\
      forall j row, l !! j = Some row -> 2 <= length row ->
                    exists row', fanned !! j = Some row' /\ 2 <= length row'.
Proof.
  induction idxs as [|i idxs IH]; intros l Hl.
  - exists l. split; [reflexivity|]. eauto.
  - destruct (Hl i (or_introl eq_refl)) as (ss & Hi & Hlen).
    destruct (fan_out_strings ss) as (ss' & Hfan & Hlen').
    cbn [fan_out_loop]. rewrite Hi, Hfan. cbn [obind].
    assert (Hi' : i < length l) by (eapply lookup_lt_Some; eauto).
    destruct (IH (<[i := map Some ss']> l)) as (fanned & Hf & Hkeep).
    { intros j Hj. destruct (Nat.eq_dec j i) as [->|Hne].
      - exists ss'. rewrite list_lookup_insert_eq by exact Hi'. split; [reflexivity | lia].
      - rewrite list_lookup_insert_ne by congruence. apply Hl. now right. }
    exists fanned. split; [exact Hf|].
    intros j row Hj Hrow. destruct (Nat.eq_dec j i) as [->|Hne].
    + apply (Hkeep i (map Some ss')).
      * now rewrite list_lookup_insert_eq.
      * rewrite length_map. lia.
    + apply (Hkeep j row); [|exact Hrow].
      now rewrite list_lookup_insert_ne by congruence.
Qed.

Lemma max_len_rectangular {X} (data : list (list X)) (n : nat) :
  data <> [] -> Forall (fun r => length r = n) data -> max_len data = n.
Proof.
  unfold max_len. intros Hne H. induction H as [|r data Hr H IH]; [congruence|].
  simpl. destruct data as [|r' data]; [simpl; lia|].
  rewrite IH by discriminate. lia.
Qed.

Lemma DataFrame_rectangular (data : list (list value)) (cols : list string) :
  Forall (fun r => length r = length cols) data ->
  exists t, DataFrame data cols = Return t.
Proof.
  intros H. unfold DataFrame. destruct data as [|r data]; [eauto|].
  rewrite (max_len_rectangular (r :: data) (length cols)) by (congruence || exact H).
  rewrite Nat.eqb_refl. eauto.
Qed.

Lemma some_row_is_long (l : list (list (option string))) :
  Forall connections_or_none l ->
  forallb (fun c => Nat.eqb (length c) 1) l = false ->
  exists j c, l !! j = Some c /\ 2 <= length c.
Proof.
  induction l as [|c l IH]; intros Hl Hall; [discriminate|].
  apply Forall_cons in Hl as [Hc Hl].
  simpl in Hall. apply andb_false_iff in Hall as [Hall|Hall].
  - exists 0, c. split; [reflexivity|]. apply Nat.eqb_neq in Hall.
    destruct Hc as [->|[Hne _]]; [simpl in Hall; congruence|].
    destruct c as [|? [|? ?]]; simpl in *; try congruence; lia.
  - destruct (IH Hl Hall) as (j & c' & Hj & Hlen). exists (S j), c'. auto.
Qed.

(** From lists of connections as the loop builds them, [connection_rows]
    returns, and with two names at least. *)
Lemma connection_rows_total (l : list (list (option string))) :
  Forall connections_or_none l ->
  exists data names, connection_rows l = Return (data, names) /\ 2 <= length names.
Proof.
  intros Hl. unfold connection_rows.
  destruct (forallb _ l) eqn:Hall.
  - do 2 eexists. split; [reflexivity|]. simpl. lia.
  - destruct (fan_out_loop_total (multi_indices l) l) as (fanned & Hf & Hkeep).
    { intros i. now apply multi_indices_rows. }
    rewrite Hf. cbn [obind]. do 2 eexists. split; [reflexivity|].
    rewrite length_connection_names.
    destruct (some_row_is_long l Hl Hall) as (j & c & Hj & Hlen).
    destruct (Hkeep j c Hj Hlen) as (row' & Hrow' & Hlen').
    transitivity (length row'); [exact Hlen'|].
    apply max_len_bound. apply list_elem_of_In. eapply list_elem_of_lookup_2; eauto.
Qed.

Lemma no_overlap_with_Node (names : list string) :
  List.filter is_connection_name names = names ->
  overlap ["Node"] names = false.
Proof.
  intros Hn. unfold overlap. cbn [existsb]. rewrite orb_false_r.
  destruct (existsb (String.eqb "Node") names) eqn:E; [|reflexivity].
  apply existsb_exists in E as (x & Hx & E). apply String.eqb_eq in E as <-.
  rewrite <- Hn in Hx. apply filter_In in Hx as [_ Hx]. discriminate.
Qed.

(** Once [temp_node] is built, nothing in the node parser fails on a column
    of strings, and the table has two connection columns at least. *)
Lemma node_parser_after_temp_node (node : list string) (temp_node : frame) :
  temp_node_of (map VStr node) = Return temp_node ->
  exists t, parse_node_and_connection (map VStr node) = Return t /\
            2 <= length (connection_columns t).
Proof.
  intros Htemp. unfold parse_node_and_connection. rewrite Htemp. cbn [obind].
  rewrite temp_node_of_strings in Htemp.
  pose proof (DataFrame_shape _ _ _ Htemp) as (Hcols & _ & _).
  pose proof (DataFrame_rows _ _ _ Htemp) as Hrows.
  assert (exists l, conn_node_list_of temp_node = Return l /\ Forall connections_or_none l)
    as (l & Hl & Hgood).
  { unfold conn_node_list_of, getattr_col. rewrite Hcols. cbn [index_of String.eqb
      Ascii.eqb Bool.eqb option_map obind].
    apply mapM_total. unfold column_at. rewrite Hrows.
    apply List.Forall_forall. intros v Hv.
    apply in_map_iff in Hv as (row & <- & Hrow).
    apply in_map_iff in Hrow as (row0 & <- & Hrow0).
    apply in_map_iff in Hrow0 as (n & <- & _).
    apply connection_list_total, nth_pad_to_VStr. }
  rewrite Hl. cbn [obind].
  destruct (connection_rows_total l Hgood) as (data & names & Hrowsl & Hnames).
  rewrite Hrowsl. cbn [obind].
  pose proof (connection_rows_shape _ _ _ Hrowsl) as (_ & Hrect & Hfilter).
  destruct (DataFrame_rectangular (map (map of_option) data) names) as [conn_node Hconn].
  { apply List.Forall_forall. intros r Hr.
    apply in_map_iff in Hr as (r0 & <- & Hr0). rewrite length_map.
    rewrite List.Forall_forall in Hrect. now apply Hrect. }
  rewrite Hconn. cbn [obind].
  pose proof (DataFrame_shape _ _ _ Hconn) as (Hccols & _ & _).
  unfold getitem_col. rewrite Hcols. cbn [index_of String.eqb Ascii.eqb Bool.eqb obind].
  destruct (join_returns (Frame ["Node"] [object]
                            (map (fun v => [v]) (column_at temp_node 0))) conn_node)
    as (t & Ht & _).
  { cbn [columns]. rewrite Hccols. now apply no_overlap_with_Node. }
  exists t. split; [exact Ht|].
  apply join_shape in Ht as (Htc & _ & _). cbn [columns] in Htc. rewrite Hccols in Htc.
  now rewrite (connection_columns_of_node_frame t names Htc Hfilter).
Qed.

Lemma DataFrame_outcome (data : list (list value)) (cols : list string) :
  match DataFrame data cols with
  | Return t => data = [] \/ max_len data = length cols
  | Raise e => e = FrameShapeError /\ data <> [] /\ max_len data <> length cols
  | OutOfFuel => False
  end.
Proof.
  unfold DataFrame. destruct data as [|r data]; [now left|].
  destruct (Nat.eqb_spec (max_len (r :: data)) (length cols)).
  - now right.
  - repeat split; [discriminate | assumption].
Qed.

(** On a column of strings the node parser either returns a table or raises
    the shape error of the [DataFrame] constructor, and it raises exactly
    when the column has a description and the greatest number of pieces of a
    description (preprocessed, split on [' with ']) is not two: when no
    description of the table has a connection, or when one has [' with ']
    twice. Nothing else in the parser fails. *)
Theorem node_parser_returns_or_shape_error (node : list string) :
  match parse_node_and_connection (map VStr node) with
  | Return t => node = [] \/ max_len (map pieces node) = 2
  | Raise e => e = FrameShapeError /\ node <> [] /\ max_len (map pieces node) <> 2
  | OutOfFuel => False
  end.
Proof.
  pose proof (DataFrame_outcome (map (fun n => map VStr (pieces n)) node)
                ["Node"; "Connection"]) as Hd.
  rewrite <- temp_node_of_strings, max_len_map_VStr in Hd.
  assert (Hnil : map (fun n => map VStr (pieces n)) node = [] <-> node = []).
  { destruct node; split; (reflexivity || discriminate). }
  destruct (temp_node_of (map VStr node)) as [temp_node| e |] eqn:Htemp.
  - destruct (node_parser_after_temp_node node temp_node Htemp) as (t & -> & _).
    destruct Hd as [Hd|Hd]; [left; now apply Hnil | now right].
  - unfold parse_node_and_connection. rewrite Htemp. cbn [obind].
    destruct Hd as (-> & Hne & Hw). repeat split; [|exact Hw].
    intros ->. now apply Hne.
  - contradiction.
Qed.

Lemma preprocessed_cells_are_strings (node : list value) (info : list string) :
  mapM preprocess_cell node = Return info -> exists ss, node = map VStr ss.
Proof.
  revert info. induction node as [|v node IH]; intros info H.
  - now exists [].
  - apply mapM_Return_cons in H as (y & ys & Hy & Hys & _).
    destruct (IH _ Hys) as [ss ->].
    destruct v; try discriminate. now exists (s :: ss).
Qed.

(** A table the node parser returns has two connection columns at least,
    [Connection1] and [Connection2]: never none, never one. *)
Theorem at_least_two_connection_columns (node : list value) (t : frame) :
  parse_node_and_connection node = Return t ->
  2 <= length (connection_columns t).
Proof.
  intros H.
  assert (exists ss, node = map VStr ss) as [ss ->].
  { unfold parse_node_and_connection, temp_node_of in H.
    apply obind_Return in H as (temp_node & Htemp & _).
    apply obind_Return in Htemp as (info & Hinfo & _).
    eapply preprocessed_cells_are_strings; eauto. }
  destruct (temp_node_of (map VStr ss)) as [temp_node| |] eqn:Htemp.
  - destruct (node_parser_after_temp_node ss temp_node Htemp) as (t' & Ht' & Hlen).
    congruence.
  - unfold parse_node_and_connection in H. rewrite Htemp in H. discriminate.
  - unfold parse_node_and_connection in H. rewrite Htemp in H. discriminate.
Qed.

Lemma at_least_two_connection_columns_witness :
  parse_node_and_connection fan_out_node = Return fan_out_table /\
  2 <= length (connection_columns fan_out_table).
Proof.
  assert (H : parse_node_and_connection fan_out_node = Return fan_out_table)
    by (vm_compute; reflexivity).
  split; [exact H|]. exact (at_least_two_connection_columns _ _ H).
Defined.

(** ** The line references the resolver asks the store for *)

Lemma asks_keeps {A} (P : string -> Prop) (m : M A) :
  keeps_loaded m -> asks_only P m.
Proof.
  intros H s. exists []. rewrite app_nil_r. split; [apply H | constructor].
Qed.

Lemma asks_weaken {A} (P Q : string -> Prop) (m : M A) :
  (forall elr, P elr -> Q elr) -> asks_only P m -> asks_only Q m.
Proof.
  intros HPQ H s. destruct (H s) as (l & Hl & HP). exists l. split; [exact Hl|].
  eapply Forall_impl; eauto.
Qed.

Lemma asks_bind {A B} (P : string -> Prop) (m : M A) (f : A -> M B) :
  asks_only P m -> (forall a, asks_only P (f a)) -> asks_only P (bind m f).
Proof.
  intros Hm Hf s. unfold bind. destruct (Hm s) as (l1 & Hl1 & HP1).
  destruct (m s) as [[a|e|] s1]; simpl in *; eauto.
  destruct (Hf a s1) as (l2 & Hl2 & HP2). exists (l1 ++ l2).
  rewrite Hl2, Hl1, app_assoc. split; [reflexivity|]. now apply Forall_app.
Qed.

Lemma asks_for {X} (P : string -> Prop) (xs : list X) (body : X -> M ctrl) :
  (forall x, asks_only P (body x)) -> asks_only P (for_ xs body).
Proof.
  intros Hb. induction xs as [|x xs IH]; simpl.
  - apply asks_keeps, keeps_ret.
  - apply asks_bind; [apply Hb|]. intros [|]; [exact IH|].
    apply asks_keeps, keeps_ret.
Qed.

Lemma asks_try_pass (P : string -> Prop) (body : M unit) :
  asks_only P body -> asks_only P (try_pass body).
Proof.
  intros H s. rewrite try_pass_state. apply H.
Qed.

Section Asks.

Variable get_mileage_file : string -> bool -> outcome (option (gmap string pyobj)).
Variable miles_chains_to_mileage : string -> outcome value.

Lemma asks_load (P : string -> Prop) (elr : string) (update : bool) :
  P elr -> asks_only P (load get_mileage_file elr update).
Proof.
  intros HP s. exists [elr]. split; [|now repeat constructor].
  unfold load. destruct (get_mileage_file elr update) as [[d|]|e|]; try reflexivity.
  destruct (d !! elr); reflexivity.
Qed.

Ltac asks :=
  repeat first
    [ apply asks_bind; [|intros ?]
    | apply asks_for; intros ?
    | match goal with
      | |- asks_only _ (if ?b then _ else _) => destruct b
      end
    | apply asks_keeps; keeps ].

Lemma asks_scan_end_table (start_elr end_elr : string) (update : bool) :
  asks_only (fun elr => elr = end_elr)
    (scan_end_table get_mileage_file start_elr end_elr update).
Proof.
  unfold scan_end_table. apply asks_bind; [now apply asks_load|].
  intros file. apply asks_keeps. keeps.
Qed.

Lemma asks_scan_link_table (start_elr end_elr link_elr : string) (update : bool) :
  asks_only (fun elr => elr = link_elr)
    (scan_link_table get_mileage_file miles_chains_to_mileage
       start_elr end_elr link_elr update).
Proof.
  unfold scan_link_table. apply asks_bind; [now apply asks_load|].
  intros file. apply asks_keeps. keeps.
Qed.

Lemma asks_try_link (start_elr end_elr : string) (update : bool) (cell : value) :
  asks_only link_shaped
    (try_link get_mileage_file miles_chains_to_mileage start_elr end_elr update cell).
Proof.
  unfold try_link. destruct cell; try (apply asks_keeps, keeps_lift).
  destruct (Re.is_match _) eqn:E; [|apply asks_keeps, keeps_ret].
  apply asks_try_pass. eapply asks_weaken; [|apply asks_scan_link_table].
  intros elr ->. exact E.
Qed.

Lemma asks_scan_start_cell (start_elr end_elr : string) (update : bool)
      (t : frame) (iv : nat * value) :
  asks_only (fun elr => elr = end_elr \/ link_shaped elr)
    (scan_start_cell get_mileage_file miles_chains_to_mileage
       start_elr end_elr update t iv).
Proof.
  unfold scan_start_cell.
  apply asks_bind; [apply asks_keeps, keeps_lift|]. intros found.
  destruct found.
  - apply asks_bind; [apply asks_keeps, keeps_lift|]. intros v.
    apply asks_bind; [apply asks_keeps, keeps_set_start|]. intros _.
    apply asks_bind; [apply asks_keeps, keeps_lift|]. intros m.
    destruct (Re.is_match m); [apply asks_keeps; keeps|].
    destruct (py_eq end_elr (snd iv)); [|apply asks_keeps; keeps].
    apply asks_bind.
    + eapply asks_weaken; [|apply asks_scan_end_table]. intros elr ->. now left.
    + intros _. apply asks_keeps. keeps.
  - apply asks_bind; [|intros _; apply asks_keeps; keeps].
    eapply asks_weaken; [|apply asks_try_link]. intros elr H. now right.
Qed.

(** The resolver asks the store for [start_elr] first, and after that only
    for [end_elr] and for line references the link pattern matches, whatever
    the tables hold and however the query ends. In particular no table is
    ever asked for under a name that is not [start_elr], not [end_elr] and
    not matched by ['[A-Z]{3}(0-9)?$']. *)
Theorem resolver_asks_for (start_elr end_elr : string) (update : bool) :
  exists asked,
    snd (resolve get_mileage_file miles_chains_to_mileage start_elr end_elr update)
    = start_elr :: asked /\
    Forall (fun elr => elr = end_elr \/ link_shaped elr) asked.
Proof.
  unfold resolve, get_conn_end_start_mileages.
  set (rest := fun file : pyobj => bind _ _).
  assert (Hrest : forall file, asks_only (fun elr => elr = end_elr \/ link_shaped elr)
                                 (rest file)).
  { intros file. unfold rest.
    apply asks_bind; [apply asks_keeps, keeps_lift|]. intros file'.
    apply asks_bind; [apply asks_keeps, keeps_lift|]. intros t.
    apply asks_bind; [apply asks_keeps, keeps_set_start|]. intros _.
    apply asks_bind; [apply asks_keeps, keeps_set_end|]. intros _.
    apply asks_bind.
    - apply asks_for. intros col.
      apply asks_bind; [apply asks_keeps, keeps_lift|]. intros start_conn.
      apply asks_bind; [|intros _; apply asks_keeps, keeps_break_if_both_found].
      apply asks_for. intros iv. apply asks_scan_start_cell.
    - intros _. apply asks_keeps. intros s.
      destruct (is_None _ || is_None _); reflexivity. }
  unfold bind at 1, load.
  set (s1 := RState VNone VNone ([] ++ [start_elr])).
  destruct (get_mileage_file start_elr update) as [[d|]|e|];
    try (exists []; split; [reflexivity | constructor]).
  destruct (d !! start_elr) as [o|];
    [|exists []; split; [reflexivity | constructor]].
  destruct (Hrest o s1) as (l & Hl & HP).
  exists l. split; [|exact HP].
  change (snd (let '(r, s) := rest o s1 in (r, loaded s)) = start_elr :: l).
  destruct (rest o s1) as [r s2]. exact Hl.
Qed.

End Asks.

(** ** Sectioned mileage files in the resolver *)

Lemma select_keys_filter (keys : list string) (file : pyobj) :
  select_keys keys file = select_keys (List.filter is_section_choice keys) file.
Proof.
  revert file. induction keys as [|k keys IH]; intros file; [reflexivity|].
  cbn [select_keys List.filter]. unfold is_section_choice at 1.
  destruct (Re.is_match (Re.re_match Pat.usual_or_new k)) eqn:E.
  - cbn [select_keys]. rewrite E. destruct (subscript file k); cbn [obind]; auto.
  - apply IH.
Qed.

Lemma filter_head_holds {X} (f : X -> bool) (l : list X) (x : X) (xs : list X) :
  List.filter f l = x :: xs -> f x = true.
Proof.
  intros H. assert (Hin : In x (List.filter f l)) by (rewrite H; now left).
  now apply filter_In in Hin.
Qed.

Lemma filter_second_holds {X} (f : X -> bool) (l : list X) (x y : X) (xs : list X) :
  List.filter f l = x :: y :: xs -> f y = true.
Proof.
  intros H. assert (Hin : In y (List.filter f l)) by (rewrite H; right; now left).
  now apply filter_In in Hin.
Qed.

(** When exactly one label of a sectioned file starts with [Usual] or [New],
    the table the resolver scans is the section under that label. *)
Theorem the_usual_or_new_section_is_chosen
        (d : list (string * frame)) (label : string) (kv : string * frame) :
  List.filter is_section_choice (map fst d) = [label] ->
  List.find (fun kv => String.eqb (fst kv) label) d = Some kv ->
  (let? file := select_section (ODict d) in as_frame file) = Return (snd kv).
Proof.
  intros Hf Hfind. cbn [select_section]. rewrite select_keys_filter, Hf.
  pose proof (filter_head_holds _ _ _ _ Hf) as Hl. unfold is_section_choice in Hl.
  cbn [select_keys]. rewrite Hl. cbn [subscript]. rewrite Hfind. reflexivity.
Qed.

Lemma the_usual_or_new_section_is_chosen_witness :
  List.filter is_section_choice
              (map fst [("Old route", start_table "BBB"); ("New route", link_table)])
  = ["New route"] /\
  List.find (fun kv => String.eqb (fst kv) "New route")
            [("Old route", start_table "BBB"); ("New route", link_table)]
  = Some ("New route", link_table) /\
  (let? file := select_section (ODict [("Old route", start_table "BBB");
                                       ("New route", link_table)]) in as_frame file)
  = Return link_table.
Proof.
  assert (H1 : List.filter is_section_choice
                 (map fst [("Old route", start_table "BBB"); ("New route", link_table)])
               = ["New route"]) by reflexivity.
  assert (H2 : List.find (fun kv => String.eqb (fst kv) "New route")
                 [("Old route", start_table "BBB"); ("New route", link_table)]
               = Some ("New route", link_table)) by reflexivity.
  split; [exact H1|]. split; [exact H2|].
  exact (the_usual_or_new_section_is_chosen _ _ _ H1 H2).
Defined.

Section Sections.

Variable get_mileage_file : string -> bool -> outcome (option (gmap string pyobj)).
Variable miles_chains_to_mileage : string -> outcome value.

Lemma resolve_start_file (start_elr end_elr : string) (update : bool)
      (m : gmap string pyobj) (file : pyobj) (e : exn) :
  get_mileage_file start_elr update = Return (Some m) ->
  m !! start_elr = Some file ->
  (let? file' := select_section file in as_frame file') = Raise e ->
  resolve get_mileage_file miles_chains_to_mileage start_elr end_elr update
  = (Raise e, [start_elr]).
Proof.
  intros Hg Hm He. unfold resolve, get_conn_end_start_mileages.
  unfold bind at 1, load. rewrite Hg, Hm.
  unfold bind at 1, lift at 1.
  destruct (select_section file) as [file'| e' |]; cbn [obind] in He.
  - unfold bind at 1, lift at 1. rewrite He. reflexivity.
  - injection He as ->. reflexivity.
  - discriminate.
Qed.

(** A start line whose file is sectioned and has no label that starts with
    [Usual] or [New] fails the query: the variable stays the dict of the
    sections, and a dict has no [columns]. *)
Theorem sections_without_usual_or_new_fail
        (start_elr end_elr : string) (update : bool)
        (m : gmap string pyobj) (d : list (string * frame)) :
  get_mileage_file start_elr update = Return (Some m) ->
  m !! start_elr = Some (ODict d) ->
  List.filter is_section_choice (map fst d) = [] ->
  resolve get_mileage_file miles_chains_to_mileage start_elr end_elr update
  = (Raise AttributeError, [start_elr]).
Proof.
  intros Hg Hm Hf. apply (resolve_start_file _ _ _ m (ODict d)); [assumption..|].
  cbn [select_section]. rewrite select_keys_filter, Hf. reflexivity.
Qed.

(** A start line whose file has two labels that start with [Usual] or [New]
    fails the query as well: the first label replaces the variable by the
    table of its section, and the second label is then looked up among the
    columns of that table. *)
Theorem sections_with_two_choices_fail
        (start_elr end_elr : string) (update : bool)
        (m : gmap string pyobj) (d : list (string * frame))
        (label1 label2 : string) (labels : list string) (kv : string * frame) :
  get_mileage_file start_elr update = Return (Some m) ->
  m !! start_elr = Some (ODict d) ->
  List.filter is_section_choice (map fst d) = label1 :: label2 :: labels ->
  List.find (fun kv => String.eqb (fst kv) label1) d = Some kv ->
  index_of label2 (columns (snd kv)) = None ->
  resolve get_mileage_file miles_chains_to_mileage start_elr end_elr update
  = (Raise KeyError, [start_elr]).
Proof.
  intros Hg Hm Hf Hfind Hcol.
  apply (resolve_start_file _ _ _ m (ODict d)); [assumption..|].
  cbn [select_section]. rewrite select_keys_filter, Hf.
  pose proof (filter_head_holds _ _ _ _ Hf) as H1.
  pose proof (filter_second_holds _ _ _ _ _ Hf) as H2.
  unfold is_section_choice in H1, H2.
  cbn [select_keys]. rewrite H1. cbn [subscript]. rewrite Hfind. cbn [obind].
  rewrite H2. cbn [subscript]. unfold getitem_col. rewrite Hcol. reflexivity.
Qed.

End Sections.

Lemma sections_without_usual_or_new_fail_witness :
  sectioned_store [("Old route", start_table "BBB"); ("Older route", link_table)]
                  "AAA" false
  = Return (Some {[ "AAA" := ODict [("Old route", start_table "BBB");
                                    ("Older route", link_table)] ]}) /\
  ({[ "AAA" := ODict [("Old route", start_table "BBB"); ("Older route", link_table)] ]}
   : gmap string pyobj) !! "AAA"
  = Some (ODict [("Old route", start_table "BBB"); ("Older route", link_table)]) /\
  List.filter is_section_choice
              (map fst [("Old route", start_table "BBB"); ("Older route", link_table)])
  = [] /\
  resolve (sectioned_store [("Old route", start_table "BBB"); ("Older route", link_table)])
          keep_text "AAA" "BBB" false
  = (Raise AttributeError, ["AAA"]).
Proof.
  assert (H1 : sectioned_store
                 [("Old route", start_table "BBB"); ("Older route", link_table)]
                 "AAA" false
               = Return (Some {[ "AAA" := ODict [("Old route", start_table "BBB");
                                                 ("Older route", link_table)] ]}))
    by reflexivity.
  assert (H2 : ({[ "AAA" := ODict [("Old route", start_table "BBB");
                                   ("Older route", link_table)] ]}
                : gmap string pyobj) !! "AAA"
               = Some (ODict [("Old route", start_table "BBB");
                              ("Older route", link_table)])) by reflexivity.
  assert (H3 : List.filter is_section_choice
                 (map fst [("Old route", start_table "BBB"); ("Older route", link_table)])
               = []) by reflexivity.
  split; [exact H1|]. split; [exact H2|]. split; [exact H3|].
  exact (sections_without_usual_or_new_fail _ keep_text _ "BBB" _ _ _ H1 H2 H3).
Defined.

Lemma sections_with_two_choices_fail_witness :
  sectioned_store [("Usual route", start_table "BBB"); ("New route", link_table)]
                  "AAA" false
  = Return (Some {[ "AAA" := ODict [("Usual route", start_table "BBB");
                                    ("New route", link_table)] ]}) /\
  ({[ "AAA" := ODict [("Usual route", start_table "BBB"); ("New route", link_table)] ]}
   : gmap string pyobj) !! "AAA"
  = Some (ODict [("Usual route", start_table "BBB"); ("New route", link_table)]) /\
  List.filter is_section_choice
              (map fst [("Usual route", start_table "BBB"); ("New route", link_table)])
  = ["Usual route"; "New route"] /\
  List.find (fun kv => String.eqb (fst kv) "Usual route")
            [("Usual route", start_table "BBB"); ("New route", link_table)]
  = Some ("Usual route", start_table "BBB") /\
  index_of "New route" (columns (snd ("Usual route", start_table "BBB"))) = None /\
  resolve (sectioned_store [("Usual route", start_table "BBB"); ("New route", link_table)])
          keep_text "AAA" "BBB" false
  = (Raise KeyError, ["AAA"]).
Proof.
  assert (H1 : sectioned_store
                 [("Usual route", start_table "BBB"); ("New route", link_table)]
                 "AAA" false
               = Return (Some {[ "AAA" := ODict [("Usual route", start_table "BBB");
                                                 ("New route", link_table)] ]}))
    by reflexivity.
  assert (H2 : ({[ "AAA" := ODict [("Usual route", start_table "BBB");
                                   ("New route", link_table)] ]}
                : gmap string pyobj) !! "AAA"
               = Some (ODict [("Usual route", start_table "BBB");
                              ("New route", link_table)])) by reflexivity.
  assert (H3 : List.filter is_section_choice
                 (map fst [("Usual route", start_table "BBB"); ("New route", link_table)])
               = ["Usual route"; "New route"]) by reflexivity.
  assert (H4 : List.find (fun kv => String.eqb (fst kv) "Usual route")
                 [("Usual route", start_table "BBB"); ("New route", link_table)]
               = Some ("Usual route", start_table "BBB")) by reflexivity.
  assert (H5 : index_of "New route"
                 (columns (snd ("Usual route", start_table "BBB"))) = None)
    by reflexivity.
  split; [exact H1|]. split; [exact H2|]. split; [exact H3|]. split; [exact H4|].
  split; [exact H5|].
  exact (sections_with_two_choices_fail _ keep_text _ "BBB" _ _ _ _ _ _ _
           H1 H2 H3 H4 H5).
Defined.

(** ** Queries the start table answers *)

Lemma is_None_of_not_None (v : value) : v <> VNone -> is_None v = false.
Proof. destruct v; simpl; congruence. Qed.

(** One step of a run: the plumbing of the monad and the control flow are
    computed, up to the next call whose result a hypothesis gives. *)
Ltac run_step :=
  cbv beta iota zeta delta
      [bind load lift ret set_start set_end both_found break_if_both_found
       try_pass for_ scan_start_cell scan_end_table scan_link_table try_link
       py_in py_eq match_cell fst snd select_section as_frame
       start_conn_mileage end_conn_mileage loaded negb andb orb app].

Section Hits.

Variable get_mileage_file : string -> bool -> outcome (option (gmap string pyobj)).
Variable miles_chains_to_mileage : string -> outcome value.

(** A direct hit. When the first cell that is not null in the first
    connection column of the start table contains [end_elr] and states a
    mileage in brackets after a word, the query is answered from the start
    table alone: by the mileage of that row and the conversion of the
    stated mileage. No other table is asked for, and no later row or column
    is looked at. *)
Theorem direct_hit_needs_no_second_table
        (start_elr end_elr : string) (update : bool)
        (m : gmap string pyobj) (t : frame) (col : string) (cols : list string)
        (i : nat) (text : string) (rest : list (nat * value)) (v e : value) :
  get_mileage_file start_elr update = Return (Some m) ->
  m !! start_elr = Some (OFrame t) ->
  connection_columns t = col :: cols ->
  conn_column t col = Return ((i, VStr text) :: rest) ->
  PyStr.contains end_elr text = true ->
  Re.is_match (Re.re_match Pat.elr_before_mileage text) = true ->
  mileage_at t i = Return v -> v <> VNone ->
  stated_mileage miles_chains_to_mileage (VStr text) = Return e -> e <> VNone ->
  resolve get_mileage_file miles_chains_to_mileage start_elr end_elr update
  = (Return (v, e), [start_elr]).
Proof.
  intros Hg Hm Hcols Hconn Hin Hmatch Hv Hv' He He'.
  apply is_None_of_not_None in Hv', He'.
  unfold resolve, get_conn_end_start_mileages.
  run_step. rewrite Hg. run_step. rewrite Hm. run_step. rewrite Hcols.
  run_step. rewrite Hconn. run_step. rewrite Hin. run_step. rewrite Hv.
  run_step. rewrite Hmatch. run_step. rewrite He. run_step.
  rewrite Hv', He'. run_step. rewrite ?Hv', ?He'. reflexivity.
Qed.

Lemma prefix_self (s : string) : String.prefix s s = true.
Proof.
  induction s as [|c s IH]; [reflexivity|].
  simpl. destruct (ascii_dec c c); [exact IH | congruence].
Qed.

Lemma contains_self (s : string) : PyStr.contains s s = true.
Proof.
  destruct s as [|c s]; [reflexivity|].
  cbn [PyStr.contains]. now rewrite prefix_self.
Qed.

(** An exact match. When the first cell that is not null in the first
    connection column of the start table is [end_elr] itself, the table of
    [end_elr] is opened; when the first cell that is not null in its first
    connection column contains [start_elr], the query is answered by the
    mileages of the two rows, and the store has been asked for the two lines
    only. *)
Theorem exact_match_reads_the_end_table
        (start_elr end_elr : string) (update : bool)
        (m m' : gmap string pyobj) (t t' : frame)
        (col col' : string) (cols cols' : list string)
        (i j : nat) (text' : string) (rest rest' : list (nat * value))
        (v v' : value) :
  get_mileage_file start_elr update = Return (Some m) ->
  m !! start_elr = Some (OFrame t) ->
  connection_columns t = col :: cols ->
  conn_column t col = Return ((i, VStr end_elr) :: rest) ->
  Re.is_match (Re.re_match Pat.elr_before_mileage end_elr) = false ->
  mileage_at t i = Return v -> v <> VNone ->
  get_mileage_file end_elr update = Return (Some m') ->
  m' !! end_elr = Some (OFrame t') ->
  connection_columns t' = col' :: cols' ->
  conn_column t' col' = Return ((j, VStr text') :: rest') ->
  PyStr.contains start_elr text' = true ->
  mileage_at t' j = Return v' -> v' <> VNone ->
  resolve get_mileage_file miles_chains_to_mileage start_elr end_elr update
  = (Return (v, v'), [start_elr; end_elr]).
Proof.
  intros Hg Hm Hcols Hconn Hmatch Hv Hv0 Hg' Hm' Hcols' Hconn' Hin' Hv' Hv0'.
  apply is_None_of_not_None in Hv0, Hv0'.
  unfold resolve, get_conn_end_start_mileages.
  run_step. rewrite Hg. run_step. rewrite Hm. run_step. rewrite Hcols.
  run_step. rewrite Hconn. run_step. rewrite contains_self. run_step. rewrite Hv.
  run_step. rewrite Hmatch. run_step. rewrite String.eqb_refl. run_step.
  rewrite Hg'. run_step. rewrite Hm'. run_step. rewrite Hcols'. run_step.
  rewrite Hconn'. run_step. rewrite Hin'. run_step. rewrite Hv'. run_step.
  rewrite ?Hv0, ?Hv0'. run_step. rewrite ?Hv0, ?Hv0'. run_step.
  rewrite ?Hv0, ?Hv0'. run_step. rewrite ?Hv0, ?Hv0'. reflexivity.
Qed.

End Hits.

Lemma direct_hit_needs_no_second_table_witness :
  link_store "BBB (3.42)" "AAA" false
  = Return (Some {[ "AAA" := OFrame (start_table "BBB (3.42)") ]}) /\
  ({[ "AAA" := OFrame (start_table "BBB (3.42)") ]} : gmap string pyobj) !! "AAA"
  = Some (OFrame (start_table "BBB (3.42)")) /\
  connection_columns (start_table "BBB (3.42)") = ["Connection1"; "Connection2"] /\
  conn_column (start_table "BBB (3.42)") "Connection1"
  = Return [(0, VStr "BBB (3.42)")] /\
  PyStr.contains "BBB" "BBB (3.42)" = true /\
  Re.is_match (Re.re_match Pat.elr_before_mileage "BBB (3.42)") = true /\
  mileage_at (start_table "BBB (3.42)") 0 = Return (VStr "12.34") /\
  VStr "12.34" <> VNone /\
  stated_mileage keep_text (VStr "BBB (3.42)") = Return (VStr "3.42") /\
  VStr "3.42" <> VNone /\
  resolve (link_store "BBB (3.42)") keep_text "AAA" "BBB" false
  = (Return (VStr "12.34", VStr "3.42"), ["AAA"]).
Proof.
  assert (H1 : link_store "BBB (3.42)" "AAA" false
               = Return (Some {[ "AAA" := OFrame (start_table "BBB (3.42)") ]}))
    by reflexivity.
  assert (H2 : ({[ "AAA" := OFrame (start_table "BBB (3.42)") ]}
                : gmap string pyobj) !! "AAA"
               = Some (OFrame (start_table "BBB (3.42)"))) by reflexivity.
  assert (H3 : connection_columns (start_table "BBB (3.42)")
               = ["Connection1"; "Connection2"]) by reflexivity.
  assert (H4 : conn_column (start_table "BBB (3.42)") "Connection1"
               = Return [(0, VStr "BBB (3.42)")]) by reflexivity.
  assert (H5 : PyStr.contains "BBB" "BBB (3.42)" = true) by reflexivity.
  assert (H6 : Re.is_match (Re.re_match Pat.elr_before_mileage "BBB (3.42)") = true)
    by reflexivity.
  assert (H7 : mileage_at (start_table "BBB (3.42)") 0 = Return (VStr "12.34"))
    by reflexivity.
  assert (H8 : VStr "12.34" <> VNone) by discriminate.
  assert (H9 : stated_mileage keep_text (VStr "BBB (3.42)") = Return (VStr "3.42"))
    by reflexivity.
  assert (H10 : VStr "3.42" <> VNone) by discriminate.
  repeat (split; [assumption|]).
  exact (direct_hit_needs_no_second_table _ _ _ _ _ _ _ _ _ _ _ _ _ _
           H1 H2 H3 H4 H5 H6 H7 H8 H9 H10).
Defined.

Lemma exact_match_reads_the_end_table_witness :
  pair_store "AAA" false = Return (Some {[ "AAA" := OFrame (start_table "BBB") ]}) /\
  ({[ "AAA" := OFrame (start_table "BBB") ]} : gmap string pyobj) !! "AAA"
  = Some (OFrame (start_table "BBB")) /\
  connection_columns (start_table "BBB") = ["Connection1"; "Connection2"] /\
  conn_column (start_table "BBB") "Connection1" = Return [(0, VStr "BBB")] /\
  Re.is_match (Re.re_match Pat.elr_before_mileage "BBB") = false /\
  mileage_at (start_table "BBB") 0 = Return (VStr "12.34") /\
  VStr "12.34" <> VNone /\
  pair_store "BBB" false = Return (Some {[ "BBB" := OFrame end_table ]}) /\
  ({[ "BBB" := OFrame end_table ]} : gmap string pyobj) !! "BBB"
  = Some (OFrame end_table) /\
  connection_columns end_table = ["Connection1"; "Connection2"] /\
  conn_column end_table "Connection1" = Return [(0, VStr "AAA")] /\
  PyStr.contains "AAA" "AAA" = true /\
  mileage_at end_table 0 = Return (VStr "7.05") /\
  VStr "7.05" <> VNone /\
  resolve pair_store keep_text "AAA" "BBB" false
  = (Return (VStr "12.34", VStr "7.05"), ["AAA"; "BBB"]).
Proof.
  assert (H1 : pair_store "AAA" false
               = Return (Some {[ "AAA" := OFrame (start_table "BBB") ]}))
    by reflexivity.
  assert (H2 : ({[ "AAA" := OFrame (start_table "BBB") ]} : gmap string pyobj) !! "AAA"
               = Some (OFrame (start_table "BBB"))) by reflexivity.
  assert (H3 : connection_columns (start_table "BBB") = ["Connection1"; "Connection2"])
    by reflexivity.
  assert (H4 : conn_column (start_table "BBB") "Connection1" = Return [(0, VStr "BBB")])
    by reflexivity.
  assert (H5 : Re.is_match (Re.re_match Pat.elr_before_mileage "BBB") = false)
    by reflexivity.
  assert (H6 : mileage_at (start_table "BBB") 0 = Return (VStr "12.34")) by reflexivity.
  assert (H7 : VStr "12.34" <> VNone) by discriminate.
  assert (H8 : pair_store "BBB" false = Return (Some {[ "BBB" := OFrame end_table ]}))
    by reflexivity.
  assert (H9 : ({[ "BBB" := OFrame end_table ]} : gmap string pyobj) !! "BBB"
               = Some (OFrame end_table)) by reflexivity.
  assert (H10 : connection_columns end_table = ["Connection1"; "Connection2"])
    by reflexivity.
  assert (H11 : conn_column end_table "Connection1" = Return [(0, VStr "AAA")])
    by reflexivity.
  assert (H12 : PyStr.contains "AAA" "AAA" = true) by reflexivity.
  assert (H13 : mileage_at end_table 0 = Return (VStr "7.05")) by reflexivity.
  assert (H14 : VStr "7.05" <> VNone) by discriminate.
  repeat (split; [assumption|]).
  exact (exact_match_reads_the_end_table _ keep_text _ _ _ _ _ _ _ _ _ _ _ _ _ _ _ _ _ _
           H1 H2 H3 H4 H5 H6 H7 H8 H9 H10 H11 H12 H13 H14).
Defined.

(** ** Queries without a match *)

Lemma index_of_In (name : string) (cols : list string) :
  In name cols -> exists i, index_of name cols = Some i.
Proof.
  induction cols as [|c cols IH]; intros H; [contradiction|].
  simpl. destruct (String.eqb_spec c name) as [_|Hne]; [eauto|].
  destruct H as [H|H]; [congruence|].
  destruct (IH H) as [i ->]. simpl. eauto.
Qed.

Lemma In_dropna (cells : list value) (iv : nat * value) :
  In iv (dropna cells) -> In (snd iv) cells /\ isnull (snd iv) = false.
Proof.
  unfold dropna. intros H. apply filter_In in H as [H Hn].
  split; [|now apply negb_true_iff in Hn].
  apply list_elem_of_In in H. apply list_elem_of_lookup_1 in H as [k Hk].
  rewrite list_lookup_imap in Hk. destruct (cells !! k) as [v|] eqn:Hv; [|discriminate].
  injection Hk as <-. apply list_elem_of_In. eapply list_elem_of_lookup_2; eauto.
Qed.

(** A loop whose every iteration keeps an invariant and ends without [break]
    runs to its end and keeps the invariant. *)
Lemma for_invariant {X} (I : rstate -> Prop) (xs : list X) (body : X -> M ctrl) :
  (forall x s, In x xs -> I s -> exists s', body x s = (Return Next, s') /\ I s') ->
  forall s, I s -> exists s', for_ xs body s = (Return tt, s') /\ I s'.
Proof.
  induction xs as [|x xs IH]; intros Hb s Hs.
  - exists s. split; [reflexivity | exact Hs].
  - destruct (Hb x s (or_introl eq_refl) Hs) as (s1 & H1 & Hs1).
    destruct (IH (fun y s0 Hy => Hb y s0 (or_intror Hy)) s1 Hs1) as (s2 & H2 & Hs2).
    exists s2. split; [|exact Hs2].
    cbn [for_]. unfold bind. rewrite H1. exact H2.
Qed.

Section NoMatch.

Variable get_mileage_file : string -> bool -> outcome (option (gmap string pyobj)).
Variable miles_chains_to_mileage : string -> outcome value.

(** A candidate the pattern refuses, or whose file the store does not have,
    is passed over: no exception, and the two variables as they were. *)
Lemma try_link_passes (start_elr end_elr : string) (update : bool) (text : string)
      (s : rstate) :
  (link_shaped (link_candidate text) ->
   get_mileage_file (link_candidate text) update = Return None) ->
  exists s',
    try_link get_mileage_file miles_chains_to_mileage start_elr end_elr update
             (VStr text) s = (Return tt, s') /\
    start_conn_mileage s' = start_conn_mileage s /\
    end_conn_mileage s' = end_conn_mileage s.
Proof.
  intros Hlink. unfold try_link, link_shaped in *.
  destruct (Re.is_match _); [|eexists; repeat split].
  unfold try_pass, scan_link_table, bind at 1, load. rewrite Hlink by reflexivity.
  eexists. repeat split.
Qed.

Lemma scan_start_cell_passes (start_elr end_elr : string) (update : bool) (t : frame)
      (i : nat) (text : string) (s : rstate) :
  PyStr.contains end_elr text = false ->
  (link_shaped (link_candidate text) ->
   get_mileage_file (link_candidate text) update = Return None) ->
  nothing_found s ->
  exists s',
    scan_start_cell get_mileage_file miles_chains_to_mileage start_elr end_elr update
                    t (i, VStr text) s = (Return Next, s') /\
    nothing_found s'.
Proof.
  intros Hin Hlink [Hs He].
  destruct (try_link_passes start_elr end_elr update text s Hlink) as (s' & Ht & Hs' & He').
  exists s'. split; [|split; congruence].
  unfold scan_start_cell. cbn [snd py_in]. rewrite Hin.
  unfold bind at 1, lift at 1. unfold bind at 1. rewrite Ht.
  unfold break_if_both_found, bind, both_found, ret. rewrite Hs', Hs. reflexivity.
Qed.

(** No match. When the file of the start line is a table in which every
    connection cell that is not null is a string that does not contain
    [end_elr], and whose candidate link line is either refused by the pattern
    or missing from the store, the query ends with [(None, None)]: it raises
    nothing, whatever the store holds for other lines. *)
Theorem no_match_gives_the_null_pair
        (start_elr end_elr : string) (update : bool)
        (m : gmap string pyobj) (t : frame) :
  get_mileage_file start_elr update = Return (Some m) ->
  m !! start_elr = Some (OFrame t) ->
  (forall col cells cell,
      In col (connection_columns t) -> getitem_col t col = Return cells ->
      In cell cells -> isnull cell = false ->
      exists text, cell = VStr text /\ PyStr.contains end_elr text = false /\
                   (link_shaped (link_candidate text) ->
                    get_mileage_file (link_candidate text) update = Return None)) ->
  fst (resolve get_mileage_file miles_chains_to_mileage start_elr end_elr update)
  = Return (VNone, VNone).
Proof.
  intros Hg Hm Hcells.
  unfold resolve, get_conn_end_start_mileages.
  unfold bind at 1, load. rewrite Hg, Hm.
  cbn [select_section]. unfold bind at 1, lift at 1.
  cbn [as_frame]. unfold bind at 1, lift at 1.
  unfold bind at 1, set_start at 1. unfold bind at 1, set_end at 1.
  cbn [start_conn_mileage end_conn_mileage loaded].
  set (s0 := RState VNone VNone ([] ++ [start_elr])).
  assert (Hs0 : nothing_found s0) by (split; reflexivity).
  destruct (for_invariant nothing_found (connection_columns t)
              (fun start_conn_col =>
                 bind (lift (conn_column t start_conn_col))
                      (fun start_conn =>
                         bind (for_ start_conn
                                    (scan_start_cell get_mileage_file
                                       miles_chains_to_mileage start_elr end_elr
                                       update t))
                              (fun _ => break_if_both_found))))
    with (s := s0) as (s1 & Hfor & [Hs1 He1]); [|exact Hs0|].
  - intros col s Hcol Hs.
    assert (In col (columns t)) as Hc
        by (unfold connection_columns in Hcol; now apply filter_In in Hcol).
    destruct (index_of_In _ _ Hc) as [k Hk].
    assert (Hget : getitem_col t col = Return (column_at t k))
      by (unfold getitem_col; now rewrite Hk).
    destruct (for_invariant nothing_found (dropna (column_at t k))
                (scan_start_cell get_mileage_file miles_chains_to_mileage
                   start_elr end_elr update t))
      with (s := s) as (s' & Hinner & Hs'); [|exact Hs|].
    + intros [i cell] s2 Hiv Hs2. apply In_dropna in Hiv as [Hin Hnull].
      destruct (Hcells col _ cell Hcol Hget Hin Hnull) as (text & -> & Hno & Hlink).
      now apply scan_start_cell_passes.
    + exists s'. split; [|exact Hs'].
      unfold bind at 1, lift at 1, conn_column. rewrite Hget. cbn [obind].
      unfold bind at 1. rewrite Hinner.
      destruct Hs' as [Hs' _].
      unfold break_if_both_found, bind, both_found, ret. now rewrite Hs'.
  - unfold bind at 1. rewrite Hfor. rewrite Hs1. reflexivity.
Qed.

End NoMatch.

Lemma no_match_gives_the_null_pair_witness :
  link_store "XYZ (1.10)" "AAA" false
  = Return (Some {[ "AAA" := OFrame (start_table "XYZ (1.10)") ]}) /\
  ({[ "AAA" := OFrame (start_table "XYZ (1.10)") ]} : gmap string pyobj) !! "AAA"
  = Some (OFrame (start_table "XYZ (1.10)")) /\
  (forall col cells cell,
      In col (connection_columns (start_table "XYZ (1.10)")) ->
      getitem_col (start_table "XYZ (1.10)") col = Return cells ->
      In cell cells -> isnull cell = false ->
      exists text, cell = VStr text /\ PyStr.contains "CCC" text = false /\
                   (link_shaped (link_candidate text) ->
                    link_store "XYZ (1.10)" (link_candidate text) false = Return None)) /\
  fst (resolve (link_store "XYZ (1.10)") keep_text "AAA" "CCC" false)
  = Return (VNone, VNone).
Proof.
  assert (H1 : link_store "XYZ (1.10)" "AAA" false
               = Return (Some {[ "AAA" := OFrame (start_table "XYZ (1.10)") ]}))
    by reflexivity.
  assert (H2 : ({[ "AAA" := OFrame (start_table "XYZ (1.10)") ]}
                : gmap string pyobj) !! "AAA"
               = Some (OFrame (start_table "XYZ (1.10)"))) by reflexivity.
  assert (H3 : forall col cells cell,
             In col (connection_columns (start_table "XYZ (1.10)")) ->
             getitem_col (start_table "XYZ (1.10)") col = Return cells ->
             In cell cells -> isnull cell = false ->
             exists text, cell = VStr text /\ PyStr.contains "CCC" text = false /\
                          (link_shaped (link_candidate text) ->
                           link_store "XYZ (1.10)" (link_candidate text) false
                           = Return None)).
  { intros col cells cell Hcol Hget Hin Hnull.
    change (connection_columns (start_table "XYZ (1.10)"))
      with ["Connection1"; "Connection2"] in Hcol.
    destruct Hcol as [<-|[<-|[]]].
    - change (Return [VStr "XYZ (1.10)"] = Return cells) in Hget.
      injection Hget as <-. destruct Hin as [<-|[]].
      exists "XYZ (1.10)". repeat split; reflexivity.
    - change (Return [VNone] = Return cells) in Hget.
      injection Hget as <-. destruct Hin as [<-|[]]. discriminate. }
  split; [exact H1|]. split; [exact H2|]. split; [exact H3|].
  exact (no_match_gives_the_null_pair _ keep_text _ _ _ _ _ H1 H2 H3).
Defined.

(** ** The notes of the mileage column *)

Lemma substring_all (s : string) : String.substring 0 (String.length s) s = s.
Proof. induction s as [|c s IH]; simpl; [reflexivity | now rewrite IH]. Qed.

Lemma slice_from_1 (c : ascii) (rest : string) :
  PyStr.slice_from (String c rest) 1 = rest.
Proof.
  unfold PyStr.slice_from, PyStr.slice, PyStr.clamp.
  cbn [String.length]. set (n := String.length rest).
  replace (Z.max 0 (Z.min (Z.of_nat (S n)) (if (1 <? 0)%Z then 1 + Z.of_nat (S n) else 1)))%Z
    with 1%Z by (cbn [Z.ltb Z.compare]; lia).
  replace (Z.max 0 (Z.min (Z.of_nat (S n))
                      (if (Z.of_nat (S n) <? 0)%Z
                       then Z.of_nat (S n) + Z.of_nat (S n) else Z.of_nat (S n))))%Z
    with (Z.of_nat (S n)).
  2:{ destruct (Z.ltb_spec (Z.of_nat (S n)) 0); lia. }
  replace (Z.to_nat (Z.of_nat (S n) - 1)) with n by lia.
  change (Z.to_nat 1) with 1. cbn [String.substring]. apply substring_all.
Qed.

(** A cell that starts with a tilde is noted [Approximate] and keeps the
    text after the tilde, whatever that text is (brackets included: the
    test for brackets comes first, but a cell that starts with a tilde does
    not start with a bracket). *)
Theorem tilde_cell_is_approximate (rest : string) :
  note_cell (VStr (String "~" rest)) = Return (VStr rest, "Approximate").
Proof.
  unfold note_cell. cbn [isnull].
  assert (H1 : PyStr.startswith (String "~" rest) "(" = false) by reflexivity.
  assert (H2 : PyStr.startswith (String "~" rest) "~" = true)
    by (unfold PyStr.startswith; simpl; now destruct rest).
  rewrite H1, H2. cbn [andb]. now rewrite slice_from_1.
Qed.


(** ** Bracketed cells *)

Lemma rev_string_app (acc s t : string) :
  PyStr.rev_string acc (s ++ t) = PyStr.rev_string (PyStr.rev_string acc s) t.
Proof.
  revert acc. induction s as [|c s IH]; intros acc; [reflexivity|].
  change (String c s ++ t)%string with (String c (s ++ t)).
  cbn [PyStr.rev_string]. apply IH.
Qed.

Lemma find_from_first_close (a b : string) (i : Z) :
  PyStr.contains ")" a = false ->
  PyStr.find_from ")" (a ++ String ")" b) i = (i + Z.of_nat (String.length a))%Z.
Proof.
  revert i. induction a as [|c a IH]; intros i H.
  - change (""  ++ String ")" b)%string with (String ")" b).
    cbn [PyStr.find_from String.prefix String.length].
    destruct (ascii_dec ")" ")") as [_|n]; [|now contradiction n].
    destruct b; cbn; lia.
  - change (String c a ++ String ")" b)%string with (String c (a ++ String ")" b)).
    cbn [PyStr.contains] in H. apply orb_false_iff in H as [Hp Ha].
    assert (Hp' : String.prefix ")" (String c (a ++ String ")" b)) = false).
    { cbn [String.prefix] in Hp |- *.
      destruct (ascii_dec ")" c); [|reflexivity].
      destruct a; discriminate. }
    cbn [PyStr.find_from]. rewrite Hp'. rewrite IH by exact Ha.
    cbn [String.length]. lia.
Qed.

Lemma substring_front (a b : string) :
  String.substring 0 (String.length a) (a ++ b) = a.
Proof.
  induction a as [|c a IH].
  - cbn [String.length]. destruct (""  ++ b)%string; reflexivity.
  - change (String c a ++ b)%string with (String c (a ++ b)).
    cbn [String.length String.substring]. now rewrite IH.
Qed.

Lemma length_app_string (a b : string) :
  String.length (a ++ b) = String.length a + String.length b.
Proof.
  induction a as [|c a IH]; [reflexivity|].
  change (String c a ++ b)%string with (String c (a ++ b)).
  cbn [String.length]. now rewrite IH.
Qed.

(** A cell in brackets is noted [Reference] and is cut at its first closing
    bracket: of ['(' + a + ')' + b], where [a] has no closing bracket and the
    whole cell ends with one, only [a] is kept, and whatever follows the
    first closing bracket is dropped. *)
Theorem bracketed_cell_is_cut_at_first_close (a b : string) :
  PyStr.contains ")" a = false ->
  PyStr.endswith (String "(" (a ++ String ")" b)) ")" = true ->
  note_cell (VStr (String "(" (a ++ String ")" b))) = Return (VStr a, "Reference").
Proof.
  intros Ha Hend. unfold note_cell. cbn [isnull].
  assert (H1 : PyStr.startswith (String "(" (a ++ String ")" b)) "(" = true).
  { unfold PyStr.startswith. cbn [String.prefix].
    destruct (ascii_dec "(" "(") as [_|n]; [|now contradiction n].
    now destruct (a ++ String ")" b)%string. }
  rewrite H1, Hend. cbn [andb].
  assert (H2 : PyStr.find (String "(" (a ++ String ")" b)) "(" = 0%Z).
  { unfold PyStr.find. cbn [PyStr.find_from].
    unfold PyStr.startswith in H1. now rewrite H1. }
  assert (H3 : PyStr.find (String "(" (a ++ String ")" b)) ")"
               = (1 + Z.of_nat (String.length a))%Z).
  { unfold PyStr.find. cbn [PyStr.find_from String.prefix].
    destruct (ascii_dec ")" "(") as [e|_]; [discriminate e|].
    now rewrite find_from_first_close. }
  rewrite H2, H3. unfold PyStr.slice, PyStr.clamp.
  cbn [String.length]. rewrite length_app_string. cbn [String.length].
  set (n := String.length a). set (k := String.length b).
  replace (if (0 + 1 <? 0)%Z then _ else _) with 1%Z
    by (destruct (Z.ltb_spec (0 + 1) 0); lia).
  replace (if (1 + Z.of_nat n <? 0)%Z then _ else _) with (1 + Z.of_nat n)%Z
    by (destruct (Z.ltb_spec (1 + Z.of_nat n) 0); lia).
  replace (Z.to_nat (Z.max 0 (Z.min (Z.of_nat (S (n + S k))) 1))) with 1 by lia.
  replace (Z.to_nat (Z.max 0 (Z.min (Z.of_nat (S (n + S k))) (1 + Z.of_nat n)) -
                     Z.max 0 (Z.min (Z.of_nat (S (n + S k))) 1))) with n by lia.
  cbn [String.substring]. subst n. now rewrite substring_front.
Qed.

Lemma bracketed_cell_is_cut_at_first_close_witness :
  PyStr.contains ")" "0.18" = false /\
  PyStr.endswith "(0.18) (12.40)" ")" = true /\
  note_cell (VStr "(0.18) (12.40)") = Return (VStr "0.18", "Reference").
Proof.
  assert (Ha : PyStr.contains ")" "0.18" = false) by reflexivity.
  assert (Hend : PyStr.endswith (String "(" ("0.18" ++ String ")" " (12.40)")) ")" = true)
    by reflexivity.
  split; [exact Ha | split; [exact Hend|]].
  exact (bracketed_cell_is_cut_at_first_close "0.18" " (12.40)" Ha Hend).
Defined.

(** ** Lines that cannot be fetched *)

Section Unfetched.

Variable get_mileage_file : string -> bool -> outcome (option (gmap string pyobj)).
Variable miles_chains_to_mileage : string -> outcome value.

(** When the file of the start line cannot be fetched ([get_mileage_file]
    gives [None]), the query raises [TypeError] at the subscript of line 296:
    nothing catches it, and no other line is asked for. *)
Theorem unfetched_start_line_raises
        (start_elr end_elr : string) (update : bool) :
  get_mileage_file start_elr update = Return None ->
  resolve get_mileage_file miles_chains_to_mileage start_elr end_elr update
  = (Raise TypeError, [start_elr]).
Proof.
  intros Hg. unfold resolve, get_conn_end_start_mileages.
  run_step. rewrite Hg. reflexivity.
Qed.

(** When the first cell that is not null in the first connection column of
    the start table is [end_elr] itself and the file of [end_elr] cannot be
    fetched, the query raises [TypeError]: the lookup of the end line is
    outside the [try] that protects the lookup of a link line. *)
Theorem unfetched_end_line_raises
        (start_elr end_elr : string) (update : bool)
        (m : gmap string pyobj) (t : frame)
        (col : string) (cols : list string)
        (i : nat) (rest : list (nat * value)) (v : value) :
  get_mileage_file start_elr update = Return (Some m) ->
  m !! start_elr = Some (OFrame t) ->
  connection_columns t = col :: cols ->
  conn_column t col = Return ((i, VStr end_elr) :: rest) ->
  Re.is_match (Re.re_match Pat.elr_before_mileage end_elr) = false ->
  mileage_at t i = Return v ->
  get_mileage_file end_elr update = Return None ->
  resolve get_mileage_file miles_chains_to_mileage start_elr end_elr update
  = (Raise TypeError, [start_elr; end_elr]).
Proof.
  intros Hg Hm Hcols Hconn Hmatch Hv Hg'.
  unfold resolve, get_conn_end_start_mileages.
  run_step. rewrite Hg. run_step. rewrite Hm. run_step. rewrite Hcols.
  run_step. rewrite Hconn. run_step. rewrite contains_self. run_step. rewrite Hv.
  run_step. rewrite Hmatch. run_step. rewrite String.eqb_refl. run_step.
  rewrite Hg'. reflexivity.
Qed.

End Unfetched.

Lemma unfetched_start_line_raises_witness :
  lone_store "BBB" false = Return None /\
  resolve lone_store keep_text "BBB" "AAA" false = (Raise TypeError, ["BBB"]).
Proof.
  assert (Hg : lone_store "BBB" false = Return None) by reflexivity.
  split; [exact Hg|].
  exact (unfetched_start_line_raises lone_store keep_text "BBB" "AAA" false Hg).
Defined.

Lemma unfetched_end_line_raises_witness :
  lone_store "AAA" false = Return (Some {[ "AAA" := OFrame (start_table "BBB") ]}) /\
  lone_store "BBB" false = Return None /\
  resolve lone_store keep_text "AAA" "BBB" false = (Raise TypeError, ["AAA"; "BBB"]).
Proof.
  assert (Hg : lone_store "AAA" false
               = Return (Some {[ "AAA" := OFrame (start_table "BBB") ]})) by reflexivity.
  assert (Hg' : lone_store "BBB" false = Return None) by reflexivity.
  split; [exact Hg | split; [exact Hg'|]].
  apply (unfetched_end_line_raises lone_store keep_text "AAA" "BBB" false
           {[ "AAA" := OFrame (start_table "BBB") ]} (start_table "BBB")
           "Connection1" ["Connection2"] 0 [] (VStr "12.34"));
    try reflexivity; try exact Hg; try exact Hg'.
Defined.

(** ** Where the code departs from what it sets out to do *)

Section DirectHit.

Variable get_mileage_file : string -> bool -> outcome (option (gmap string pyobj)).
Variable miles_chains_to_mileage : string -> outcome value.

(** The run of the resolver on a direct hit, with the guard as the code
    writes it: neither value is [None]. *)
Lemma direct_hit_run
      (start_elr end_elr : string) (update : bool)
      (m : gmap string pyobj) (t : frame) (col : string) (cols : list string)
      (i : nat) (text : string) (rest : list (nat * value)) (v e : value) :
  get_mileage_file start_elr update = Return (Some m) ->
  m !! start_elr = Some (OFrame t) ->
  connection_columns t = col :: cols ->
  conn_column t col = Return ((i, VStr text) :: rest) ->
  PyStr.contains end_elr text = true ->
  Re.is_match (Re.re_match Pat.elr_before_mileage text) = true ->
  mileage_at t i = Return v -> is_None v = false ->
  stated_mileage miles_chains_to_mileage (VStr text) = Return e -> is_None e = false ->
  resolve get_mileage_file miles_chains_to_mileage start_elr end_elr update
  = (Return (v, e), [start_elr]).
Proof.
  intros Hg Hm Hcols Hconn Hin Hmatch Hv Hv' He He'.
  unfold resolve, get_conn_end_start_mileages.
  run_step. rewrite Hg. run_step. rewrite Hm. run_step. rewrite Hcols.
  run_step. rewrite Hconn. run_step. rewrite Hin. run_step. rewrite Hv.
  run_step. rewrite Hmatch. run_step. rewrite He. run_step.
  rewrite Hv', He'. run_step. rewrite ?Hv', ?He'. reflexivity.
Qed.

End DirectHit.

(** C1 -- the resolver returns a pair with exactly one null component. The
    waypoint [Orton Junction] of the line [AAA] has an unknown mileage, a
    NaN, and connects to [BBB (3.42)]. The query from [AAA] to [BBB] takes
    the NaN as the start mileage (line 310) and the conversion of [3.42] as
    the end mileage (line 312); the guard of lines 376 and 377 tests
    [is None], a NaN is not [None], and the pair [(nan, e)] is returned: its
    first component is null for [pd.isnull], the test the module applies to
    mileage cells, and its second is not. *)
Theorem unknown_mileage_gives_half_null_pair
        (miles_chains_to_mileage : string -> outcome value) (e : value) :
  miles_chains_to_mileage "3.42" = Return e ->
  isnull e = false ->
  resolve unknown_mileage_store miles_chains_to_mileage "AAA" "BBB" false
  = (Return (VFloat nan, e), ["AAA"]) /\
  isnull (VFloat nan) = true /\ isnull e = false.
Proof.
  intros Hconv He.
  assert (Hnone : is_None e = false) by (destruct e; (discriminate || reflexivity)).
  split; [|split; [reflexivity | exact He]].
  apply (direct_hit_run unknown_mileage_store miles_chains_to_mileage "AAA" "BBB" false
           {[ "AAA" := OFrame unknown_mileage_table ]} unknown_mileage_table
           "Connection1" ["Connection2"] 1 "BBB (3.42)" [] (VFloat nan) e);
    try reflexivity; try exact Hnone.
  rewrite <- Hconv. vm_compute. reflexivity.
Qed.

Lemma unknown_mileage_gives_half_null_pair_witness :
  keep_text "3.42" = Return (VStr "3.42") /\
  isnull (VStr "3.42") = false /\
  resolve unknown_mileage_store keep_text "AAA" "BBB" false
  = (Return (VFloat nan, VStr "3.42"), ["AAA"]) /\
  isnull (VFloat nan) = true /\ isnull (VStr "3.42") = false.
Proof.
  assert (Hconv : keep_text "3.42" = Return (VStr "3.42")) by reflexivity.
  assert (He : isnull (VStr "3.42") = false) by reflexivity.
  split; [exact Hconv | split; [exact He|]].
  exact (unknown_mileage_gives_half_null_pair keep_text (VStr "3.42") Hconv He).
Defined.

Lemma column_at_rows (t : frame) (i : nat) :
  rows t <> [] -> exists c cells, column_at t i = c :: cells.
Proof.
  unfold column_at. destruct (rows t) as [|row rws]; [congruence|].
  intros _. cbn [map]. eauto.
Qed.

(** The assembler raises on every raw table that has a row. *)
Lemma assembler_raises_on_rows (fuel : nat) (dat : frame) :
  rows dat <> [] ->
  exists e, parse_mileage_node_and_connection (S (S fuel)) dat = Raise e.
Proof.
  intros Hrows. unfold parse_mileage_node_and_connection.
  destruct (iloc_col dat 0) as [[dt mileage]|e|] eqn:H0; cbn [obind]; [|eauto|].
  - destruct (iloc_col dat 1) as [[dn node]|e|] eqn:H1; cbn [obind]; [|eauto|].
    + cbn [fst snd].
      assert (exists c cells, mileage = c :: cells) as (c & cells & ->).
      { unfold iloc_col in H0. destruct (Nat.ltb _ _); [|discriminate].
        injection H0 as _ <-. now apply column_at_rows. }
      pose proof (parse_mileage_halts fuel (Series dt (c :: cells))) as Hh.
      destruct (parse_mileage (S (S fuel)) (Series dt (c :: cells))) as [t|e|] eqn:E.
      * exfalso. exact (parse_mileage_cells_not_returned _ _ _ _ _ E).
      * cbn [obind]. eauto.
      * congruence.
    + unfold iloc_col in H1. destruct (Nat.ltb _ _); discriminate.
  - unfold iloc_col in H0. destruct (Nat.ltb _ _); discriminate.
Qed.

(** C10 -- [parse_mileage_file] neither updates the mapping nor returns it
    for a mileage file whose table has a row: the call raises. The table at
    [elr] is handed to the assembler (line 200), whose mileage parser calls
    itself on the first cell of the column (line 119) and raises there;
    the assignment of line 201 and the [return] of line 202 are never
    reached. This is the defect of the mileage parser seen from the caller
    of [parse_mileage_file]. *)
Theorem parse_mileage_file_raises_on_rows
        (fuel : nat) (h : heap) (mileage_file : ref) (elr : string) (dat : frame) :
  h mileage_file !! elr = Some (OFrame dat) ->
  rows dat <> [] ->
  exists e, parse_mileage_file (S (S fuel)) h mileage_file elr = Raise e.
Proof.
  intros Hdat Hrows. unfold parse_mileage_file. rewrite Hdat.
  destruct (assembler_raises_on_rows fuel dat Hrows) as [e ->].
  exists e. reflexivity.
Qed.

Lemma parse_mileage_file_raises_on_rows_witness :
  two_row_heap 0 !! "AAA" = Some (OFrame two_row_raw_table) /\
  rows two_row_raw_table <> [] /\
  exists e, parse_mileage_file 2 two_row_heap 0 "AAA" = Raise e.
Proof.
  assert (Hdat : two_row_heap 0 !! "AAA" = Some (OFrame two_row_raw_table))
    by reflexivity.
  assert (Hrows : rows two_row_raw_table <> []) by discriminate.
  split; [exact Hdat | split; [exact Hrows|]].
  exact (parse_mileage_file_raises_on_rows 0 two_row_heap 0 "AAA" two_row_raw_table
           Hdat Hrows).
Defined.

(** On the file of the two waypoints the exception is the [AttributeError]
    of a string that has no [dtype]. *)
Example parse_two_row_mileage_file :
  parse_mileage_file 2 two_row_heap 0 "AAA" = Raise AttributeError.
Proof. vm_compute. reflexivity. Qed.
